(** * Waveform / beat-grid rendering widgets of [gui.py]

    A shallow embedding of the three rendering widgets of the ProDJ link
    monitor ([WaveformWidget], [PreviewWaveformWidget], [BeatBarWidget]) and
    the properties of their decoding, compositing and refresh logic.

    - Python [bytes] are [list byte]; indexing yields the byte's value in
      [0,255] as an integer.
    - Python [int] is [Z]; Python [float] is IEEE binary64, taken from the
      [SpecFloat] specification of the standard library ([prec = 53],
      [emax = 1024]).
    - A [QPainter] is modelled by the ordered list of drawing calls issued on
      its target; a [QPixmap] by its size together with that list.
    - Methods are computations in a small state-and-exception monad over the
      widget's instance fields. *)

From Stdlib Require Import ZArith List Bool Lia String.
From Stdlib Require Import Strings.Byte.
From Stdlib Require Import Floats.SpecFloat.
From Stdlib Require DecimalString.
Import ListNotations.

Local Open Scope Z_scope.

(* ================================================================== *)
(** * Python numbers *)

Module Py.

(** Exceptions that the modelled code can raise.  [RangeError] and
    [FieldError] are the two [construct] exceptions that [gui.py] imports. *)
Inductive construct_error := RangeError | FieldError.

Inductive exn :=
| ConstructError (e : construct_error)
| OverflowError
| ValueError
| TypeError.

Definition prec : Z := 53.
Definition emax : Z := 1024.

Definition float := spec_float.

(** Value of a byte as Python sees it when indexing a [bytes] object. *)
Definition byte_val (b : byte) : Z := Z.of_N (Byte.to_N b).

(** [range(lo, hi)] *)
Definition range (lo hi : Z) : list Z :=
  map (fun k => lo + Z.of_nat k) (seq 0 (Z.to_nat (hi - lo))).

(** [data[i]] on a [bytes] object, for [0 <= i < len(data)]: every index
    the modelled code uses is kept in that range by a loop bound or a
    length guard, so the [IndexError] of Python is never reached; outside
    the range the model yields 0. *)
Definition getitem (data : list byte) (i : Z) : Z :=
  byte_val (nth (Z.to_nat i) data x00).

(** [len(data)] *)
Definition len (data : list byte) : Z := Z.of_nat (List.length data).

(** [float(n)] for an [int]: correctly rounded, [OverflowError] when the
    integer is too large for a double. *)
Definition float_of_int (n : Z) : exn + float :=
  match binary_normalize prec emax n 0 false with
  | S754_infinity _ => inl OverflowError
  | f => inr f
  end.

(** [x * y] on floats never raises. *)
Definition fmul (x y : float) : float := SFmul prec emax x y.

(** [n * x] with [n] an [int] and [x] a [float]: the integer is converted
    first. *)
Definition mul_int_float (n : Z) (x : float) : exn + float :=
  match float_of_int n with
  | inl e => inl e
  | inr f => inr (fmul f x)
  end.

(** [x * n] with [x] a [float] and [n] an [int]. *)
Definition mul_float_int (x : float) (n : Z) : exn + float :=
  match float_of_int n with
  | inl e => inl e
  | inr f => inr (fmul x f)
  end.

(** [int(x)] for a float: truncation toward zero; [ValueError] on NaN,
    [OverflowError] on an infinity. *)
Definition int_of_float (x : float) : exn + Z :=
  match x with
  | S754_zero _ => inr 0
  | S754_finite s m e => inr (cond_Zopp s (Z.shiftl (Zpos m) e))
  | S754_infinity _ => inl OverflowError
  | S754_nan => inl ValueError
  end.

(** Python's [round(x)] for a float: nearest integer, ties to even.  The
    code never calls it; it is what the word "round" of the specification
    denotes, and is used only to compare against [int_of_float]. *)
Definition round_half_even (x : float) : exn + Z :=
  match x with
  | S754_zero _ => inr 0
  | S754_finite s m e =>
      if 0 <=? e then inr (cond_Zopp s (Z.shiftl (Zpos m) e))
      else
        let d := Z.shiftl 1 (- e) in
        let q := Zpos m / d in
        let r := Zpos m mod d in
        let q' :=
          match 2 * r ?= d with
          | Lt => q
          | Gt => q + 1
          | Eq => if Z.even q then q else q + 1
          end in
        inr (cond_Zopp s q')
  | S754_infinity _ => inl OverflowError
  | S754_nan => inl ValueError
  end.

(** Float literals that occur in the source, as binary64 values. *)

(** [0.5] *)
Definition f_0_5 : float := S754_finite false 4503599627370496 (-53).
(** [0.04] *)
Definition f_0_04 : float := S754_finite false 5764607523034235 (-57).
(** [0.0] and [1.0] *)
Definition f_0 : float := S754_zero false.
Definition f_1 : float := S754_finite false 4503599627370496 (-52).

(** [0 <= x <= 1] on well-formed doubles. *)
Definition in_unit_interval (x : float) : bool :=
  valid_binary prec emax x && SFleb f_0 x && SFleb x f_1.

End Py.

(* ================================================================== *)
(** * State-and-exception monad for methods *)

Inductive outcome (A : Type) : Type :=
| Return (a : A)
| Raise (e : Py.exn).
Arguments Return {A} a.
Arguments Raise {A} e.

Module Eff.
Section WithState.
Context {St : Type}.

(** A method body: runs on the instance fields, returns or raises, and
    leaves the fields as they were when it stopped. *)
Definition M (A : Type) : Type := St -> outcome A * St.

Definition ret {A} (a : A) : M A := fun s => (Return a, s).

Definition bind {A B} (c : M A) (k : A -> M B) : M B :=
  fun s =>
    match c s with
    | (Return a, s') => k a s'
    | (Raise e, s') => (Raise e, s')
    end.

Definition get : M St := fun s => (Return s, s).

Definition modify (f : St -> St) : M unit := fun s => (Return tt, f s).

Definition raise {A} (e : Py.exn) : M A := fun s => (Raise e, s).

(** Lift the result of a pure but fallible expression. *)
Definition lift {A} (r : Py.exn + A) : M A :=
  match r with
  | inl e => raise e
  | inr a => ret a
  end.

(** [try: body  except <handles> as e: handler e] *)
Definition try_except {A} (body : M A) (handles : Py.exn -> bool)
           (handler : Py.exn -> M A) : M A :=
  fun s =>
    match body s with
    | (Return a, s') => (Return a, s')
    | (Raise e, s') => if handles e then handler e s' else (Raise e, s')
    end.

Definition when (b : bool) (c : M unit) : M unit :=
  if b then c else ret tt.
End WithState.
End Eff.

Declare Scope eff_scope.
Delimit Scope eff_scope with eff.
Notation "x <- c ;; k" := (Eff.bind c (fun x => k))
  (at level 61, c at next level, right associativity) : eff_scope.
Notation "c ;; k" := (Eff.bind c (fun _ => k))
  (at level 61, right associativity) : eff_scope.

(** The state a computation leaves behind, and whether it returned. *)
Definition state_of {St A} (r : outcome A * St) : St := snd r.
Definition returns {St A} (r : outcome A * St) : Prop :=
  exists a, fst r = Return a.

(* ================================================================== *)
(** * Qt drawing model *)

Module Qt.

Inductive color :=
| QColor (r g b : Z)
| black | white | red | yellow.

(** Calls issued on a paint target, in program order. *)
Inductive paint_op :=
| Fill (c : color)                      (* QPixmap.fill *)
| SetBrushSolid                         (* painter.setBrush(Qt.SolidPattern) *)
| SetPen (c : color)                    (* painter.setPen *)
| DrawLine (x1 y1 x2 y2 : Z)            (* painter.drawLine *)
| DrawRect (x y w h : Z)                (* painter.drawRect *)
| FillRect (x y w h : Z) (c : color).   (* painter.fillRect *)

(** A pixmap: the size given to its constructor and the calls drawn
    into it. *)
Record QPixmap := {
  pm_width : Z;
  pm_height : Z;
  pm_ops : list paint_op
}.

(** [QPixmap.width()]: a pixmap constructed with a non-positive dimension
    is a null pixmap, whose width is 0. *)
Definition width (p : QPixmap) : Z :=
  if (0 <? pm_width p) && (0 <? pm_height p) then pm_width p else 0.

(** A line together with the pen it was drawn with. *)
Record stroke := {
  st_pen : option color;
  st_x1 : Z; st_y1 : Z; st_x2 : Z; st_y2 : Z
}.

(** The lines a call sequence draws, each with the pen current at that
    call. *)
Fixpoint strokes_from (pen : option color) (ops : list paint_op) : list stroke :=
  match ops with
  | [] => []
  | SetPen c :: rest => strokes_from (Some c) rest
  | DrawLine x1 y1 x2 y2 :: rest =>
      {| st_pen := pen; st_x1 := x1; st_y1 := y1; st_x2 := x2; st_y2 := y2 |}
        :: strokes_from pen rest
  | _ :: rest => strokes_from pen rest
  end.

Definition strokes (ops : list paint_op) : list stroke := strokes_from None ops.

(** The filled rectangles of a call sequence, in order. *)
Fixpoint fill_rects (ops : list paint_op) : list (Z * Z * Z * Z * color) :=
  match ops with
  | [] => []
  | FillRect x y w h c :: rest => (x, y, w, h, c) :: fill_rects rest
  | _ :: rest => fill_rects rest
  end.

(** The outlined rectangles of a call sequence, in order. *)
Fixpoint draw_rects (ops : list paint_op) : list (Z * Z * Z * Z) :=
  match ops with
  | [] => []
  | DrawRect x y w h :: rest => (x, y, w, h) :: draw_rects rest
  | _ :: rest => draw_rects rest
  end.

End Qt.

(** Records written through the [logging] module. *)
Inductive log_record :=
| LogInfo (msg : string)
| LogError (msg : string) (e : Py.exn).

(* ================================================================== *)
(** * [class WaveformWidget] *)

Module WaveformWidget.
Import Eff.
Local Open Scope eff_scope.

(** One entry of the parsed beat grid: [beat["beat"]] and [beat["time"]]. *)
Record Beat := { beat : Z; time : Z }.

(** The container [Beatgrid.parse] returns; the widget reads its ["beats"]
    entry only.  Such a container always has that key, hence is truthy. *)
Record Beatgrid := { beats : list Beat }.

(** Instance fields, followed by what the widget emits to its surroundings
    (log records, [update()] requests, the running timer). *)
Record t := {
  waveform_height : Z;
  waveform_center : Z;
  waveform_px_per_s : Z;
  waveform_data : option (list byte);
  beatgrid_data : option Beatgrid;
  pixmap : option Qt.QPixmap;
  offset : Z;
  position_marker : Py.float;
  frames : Z;
  position_marker_offset : Z;
  log : list log_record;
  update_requests : nat;
  timer : option Z
}.

Definition set_waveform_data v (w : t) : t :=
  {| waveform_height := waveform_height w; waveform_center := waveform_center w;
     waveform_px_per_s := waveform_px_per_s w; waveform_data := v;
     beatgrid_data := beatgrid_data w; pixmap := pixmap w; offset := offset w;
     position_marker := position_marker w; frames := frames w;
     position_marker_offset := position_marker_offset w; log := log w;
     update_requests := update_requests w; timer := timer w |}.

Definition set_beatgrid_data v (w : t) : t :=
  {| waveform_height := waveform_height w; waveform_center := waveform_center w;
     waveform_px_per_s := waveform_px_per_s w; waveform_data := waveform_data w;
     beatgrid_data := v; pixmap := pixmap w; offset := offset w;
     position_marker := position_marker w; frames := frames w;
     position_marker_offset := position_marker_offset w; log := log w;
     update_requests := update_requests w; timer := timer w |}.

Definition set_pixmap v (w : t) : t :=
  {| waveform_height := waveform_height w; waveform_center := waveform_center w;
     waveform_px_per_s := waveform_px_per_s w; waveform_data := waveform_data w;
     beatgrid_data := beatgrid_data w; pixmap := v; offset := offset w;
     position_marker := position_marker w; frames := frames w;
     position_marker_offset := position_marker_offset w; log := log w;
     update_requests := update_requests w; timer := timer w |}.

Definition set_offset v (w : t) : t :=
  {| waveform_height := waveform_height w; waveform_center := waveform_center w;
     waveform_px_per_s := waveform_px_per_s w; waveform_data := waveform_data w;
     beatgrid_data := beatgrid_data w; pixmap := pixmap w; offset := v;
     position_marker := position_marker w; frames := frames w;
     position_marker_offset := position_marker_offset w; log := log w;
     update_requests := update_requests w; timer := timer w |}.

Definition set_position_marker v (w : t) : t :=
  {| waveform_height := waveform_height w; waveform_center := waveform_center w;
     waveform_px_per_s := waveform_px_per_s w; waveform_data := waveform_data w;
     beatgrid_data := beatgrid_data w; pixmap := pixmap w; offset := offset w;
     position_marker := v; frames := frames w;
     position_marker_offset := position_marker_offset w; log := log w;
     update_requests := update_requests w; timer := timer w |}.

Definition set_frames v (w : t) : t :=
  {| waveform_height := waveform_height w; waveform_center := waveform_center w;
     waveform_px_per_s := waveform_px_per_s w; waveform_data := waveform_data w;
     beatgrid_data := beatgrid_data w; pixmap := pixmap w; offset := offset w;
     position_marker := position_marker w; frames := v;
     position_marker_offset := position_marker_offset w; log := log w;
     update_requests := update_requests w; timer := timer w |}.

Definition set_position_marker_offset v (w : t) : t :=
  {| waveform_height := waveform_height w; waveform_center := waveform_center w;
     waveform_px_per_s := waveform_px_per_s w; waveform_data := waveform_data w;
     beatgrid_data := beatgrid_data w; pixmap := pixmap w; offset := offset w;
     position_marker := position_marker w; frames := frames w;
     position_marker_offset := v; log := log w;
     update_requests := update_requests w; timer := timer w |}.

Definition set_log v (w : t) : t :=
  {| waveform_height := waveform_height w; waveform_center := waveform_center w;
     waveform_px_per_s := waveform_px_per_s w; waveform_data := waveform_data w;
     beatgrid_data := beatgrid_data w; pixmap := pixmap w; offset := offset w;
     position_marker := position_marker w; frames := frames w;
     position_marker_offset := position_marker_offset w; log := v;
     update_requests := update_requests w; timer := timer w |}.

Definition set_update_requests v (w : t) : t :=
  {| waveform_height := waveform_height w; waveform_center := waveform_center w;
     waveform_px_per_s := waveform_px_per_s w; waveform_data := waveform_data w;
     beatgrid_data := beatgrid_data w; pixmap := pixmap w; offset := offset w;
     position_marker := position_marker w; frames := frames w;
     position_marker_offset := position_marker_offset w; log := log w;
     update_requests := v; timer := timer w |}.

Definition set_timer v (w : t) : t :=
  {| waveform_height := waveform_height w; waveform_center := waveform_center w;
     waveform_px_per_s := waveform_px_per_s w; waveform_data := waveform_data w;
     beatgrid_data := beatgrid_data w; pixmap := pixmap w; offset := offset w;
     position_marker := position_marker w; frames := frames w;
     position_marker_offset := position_marker_offset w; log := log w;
     update_requests := update_requests w; timer := v |}.

(** Methods of the widget run on its fields. *)
Definition method (A : Type) : Type := @Eff.M t A.

(** [logging.info(msg)], [logging.error(msg, e)], [self.update()],
    [self.startTimer(ms)]. *)
Definition logging_info (msg : string) : method unit :=
  modify (fun w => set_log (log w ++ [LogInfo msg]) w).

Definition logging_error (msg : string) (e : Py.exn) : method unit :=
  modify (fun w => set_log (log w ++ [LogError msg e]) w).

Definition update : method unit :=
  modify (fun w => set_update_requests (S (update_requests w)) w).

Definition startTimer (ms : Z) : method unit :=
  modify (set_timer (Some ms)).

(** Truthiness of [self.waveform_data]: [None] and [b""] are falsy. *)
Definition truthy_bytes (d : option (list byte)) : bool :=
  match d with
  | Some (_ :: _) => true
  | _ => false
  end.

(** ** [renderWaveformPixmap] *)

(** Lines 85-89: the body of the loop over [data_x]. *)
Definition draw_sample (pmo center : Z) (data : list byte) (data_x : Z)
  : list Qt.paint_op :=
  let draw_x := data_x + pmo in
  let height := Z.land (Py.getitem data data_x) 31 in
  let whiteness := Z.shiftr (Py.getitem data data_x) 5 in
  [ Qt.SetPen (Qt.QColor (36 * whiteness) (36 * whiteness) 255);
    Qt.DrawLine draw_x (center - height) draw_x (center + height) ].

(** Line 84: [for data_x in range(0, len(self.waveform_data))]. *)
Definition draw_waveform (pmo center : Z) (data : list byte) : list Qt.paint_op :=
  flat_map (draw_sample pmo center data) (Py.range 0 (Py.len data)).

(** Lines 91-100: two filled rectangles per beat. *)
Definition draw_beat (px_per_s pmo wf_height : Z) (bt : Beat) : list Qt.paint_op :=
  let '(brush, length) :=
    if beat bt =? 1 then (Qt.red, 8) else (Qt.white, 5) in
  let draw_x := time bt * px_per_s / 1000 + pmo in
  [ Qt.FillRect (draw_x - 1) 0 4 length brush;
    Qt.FillRect (draw_x - 1) (wf_height - length) 4 length brush ].

Definition draw_beats (px_per_s pmo wf_height : Z) (bs : list Beat)
  : list Qt.paint_op :=
  flat_map (draw_beat px_per_s pmo wf_height) bs.

(** The calls painted into the new pixmap (lines 75-100). *)
Definition render_ops (w : t) (data : list byte) (pm_width : Z) : list Qt.paint_op :=
  let empty_pm := {| Qt.pm_width := pm_width;
                     Qt.pm_height := waveform_height w;
                     Qt.pm_ops := [] |} in
  [ Qt.Fill Qt.black;
    Qt.SetBrushSolid;
    Qt.SetPen Qt.white;
    Qt.DrawLine 0 (waveform_center w) (Qt.width empty_pm) (waveform_center w) ]
  ++ (if truthy_bytes (Some data) then
        draw_waveform (position_marker_offset w) (waveform_center w) data
        ++ match beatgrid_data w with
           | Some bg =>
               draw_beats (waveform_px_per_s w) (position_marker_offset w)
                          (waveform_height w) (beats bg)
           | None => []
           end
      else []).

Definition renderWaveformPixmap : method unit :=
  logging_info "rendering waveform" ;;
  w <- get ;;
  match waveform_data w with
  | None => raise Py.TypeError          (* len(None) *)
  | Some data =>
      let pm_width := position_marker_offset w + Py.len data in
      modify (set_pixmap
                (Some {| Qt.pm_width := pm_width;
                         Qt.pm_height := waveform_height w;
                         Qt.pm_ops := render_ops w data pm_width |})) ;;
      logging_info "rendering waveform done"
  end.

(** ** [setData] *)
Definition setData (data : list byte) : method unit :=
  modify (set_pixmap None) ;;
  modify (set_waveform_data (Some (skipn 20 data))) ;;
  renderWaveformPixmap.

(** ** [setPositionMarkerOffset], [setFrameCount] *)
Definition setPositionMarkerOffset (relative : Py.float) : method unit :=
  modify (set_position_marker relative) ;;
  w <- get ;;
  prod <- lift (Py.mul_float_int relative (frames w)) ;;
  n <- lift (Py.int_of_float prod) ;;
  modify (set_position_marker_offset n).

Definition setFrameCount (frames' : Z) : method unit :=
  modify (set_frames frames') ;;
  w <- get ;;
  setPositionMarkerOffset (position_marker w).

(** ** [timerEvent] *)
Definition timerEvent : method unit :=
  prod <- lift (Py.mul_int_float 142 Py.f_0_04) ;;
  step <- lift (Py.int_of_float prod) ;;
  modify (fun w => set_offset (offset w + step) w) ;;
  update.

(** ** [paintEvent]: what is put on screen.  [None] when there is no
    composited image; otherwise the region copied out of it and the
    position marker stamped on the copy. *)
Record frame := {
  fr_source : Qt.QPixmap;
  fr_x : Z; fr_y : Z; fr_w : Z; fr_h : Z;
  fr_marker : Qt.paint_op
}.

Definition paintEvent (w : t) : option frame :=
  match pixmap w with
  | Some pm =>
      Some {| fr_source := pm;
              fr_x := offset w; fr_y := 0;
              fr_w := frames w; fr_h := waveform_height w;
              fr_marker := Qt.FillRect (position_marker_offset w) 0 4
                                       (waveform_height w) Qt.red |}
  | None => None
  end.

(** ** [__init__] *)

(** The fields assigned on lines 14-22; [frames] and
    [position_marker_offset] are created by the [setFrameCount] call that
    follows and hold no value before it. *)
Definition fresh : t :=
  {| waveform_height := 75;
     waveform_center := 75 / 2;
     waveform_px_per_s := 150;
     waveform_data := None;
     beatgrid_data := None;
     pixmap := None;
     offset := 0;
     position_marker := Py.f_0_5;
     frames := 0;
     position_marker_offset := 0;
     log := [];
     update_requests := 0;
     timer := None |}.

Definition __init__ : method unit :=
  w <- get ;;
  setFrameCount (waveform_px_per_s w * 10) ;;
  startTimer 40.

(** The widget as its constructor leaves it. *)
Definition new : t := state_of (__init__ fresh).

(** ** [setBeatgridData], over the external parser *)
Section Parser.
(** [packets.Beatgrid.parse]: the binary beat-grid grammar lives outside
    [gui.py]; it yields a container or raises one of the two [construct]
    errors the widget catches. *)
Variable Beatgrid_parse : list byte -> Py.construct_error + Beatgrid.

Definition parse (buf : list byte) : method Beatgrid :=
  match Beatgrid_parse buf with
  | inl e => raise (Py.ConstructError e)
  | inr bg => ret bg
  end.

(** [except (RangeError, FieldError)] *)
Definition is_parse_error (e : Py.exn) : bool :=
  match e with
  | Py.ConstructError _ => true
  | _ => false
  end.

Definition setBeatgridData (buf : list byte) : method unit :=
  try_except
    (bg <- parse buf ;;
     modify (set_beatgrid_data (Some bg)))
    is_parse_error
    (fun e =>
       logging_error "Gui: failed to parse beatgrid data: %s" e ;;
       modify (set_beatgrid_data None)) ;;
  w <- get ;;
  when (truthy_bytes (waveform_data w)) renderWaveformPixmap.
End Parser.

End WaveformWidget.

(* ================================================================== *)
(** * [class PreviewWaveformWidget] *)

Module PreviewWaveformWidget.
Import Eff.
Local Open Scope eff_scope.

Record t := {
  data : option (list byte);
  position : Z;
  update_requests : nat
}.

Definition method (A : Type) : Type := @Eff.M t A.

Definition update : method unit :=
  modify (fun w => {| data := data w; position := position w;
                      update_requests := S (update_requests w) |}).

Definition __init__ : t :=
  {| data := None; position := 0; update_requests := 0 |}.

Definition setData (d : list byte) : method unit :=
  modify (fun w => {| data := Some d; position := position w;
                      update_requests := update_requests w |}) ;;
  update.

Definition setProgress (relative : Py.float) : method unit :=
  prod <- lift (Py.mul_int_float 400 relative) ;;
  new_position <- lift (Py.int_of_float prod) ;;
  w <- get ;;
  when (negb (new_position =? position w))
       (modify (fun w => {| data := data w; position := new_position;
                            update_requests := update_requests w |}) ;;
        update).

(** Lines 156-159: the body of the loop over [x]. *)
Definition draw_preview_sample (d : list byte) (x : Z) : list Qt.paint_op :=
  let height := Py.getitem d (2 * x) in
  let whiteness := Py.getitem d (2 * x + 1) + 1 in
  [ Qt.SetPen (Qt.QColor (36 * whiteness) (36 * whiteness) 255);
    Qt.DrawLine x 31 x (31 - height) ].

(** [self.data and len(self.data) >= 400*2] *)
Definition enough_data (d : option (list byte)) : bool :=
  match d with
  | Some ((_ :: _) as l) => 400 * 2 <=? Py.len l
  | _ => false
  end.

Definition drawPreviewWaveformPixmap (w : t) : Qt.QPixmap :=
  {| Qt.pm_width := 400;
     Qt.pm_height := 34;
     Qt.pm_ops :=
       [ Qt.Fill Qt.black; Qt.SetBrushSolid ]
       ++ (if enough_data (data w) then
             match data w with
             | Some d => flat_map (draw_preview_sample d) (Py.range 0 400)
             | None => []
             end
           else [])
       ++ [ Qt.SetPen Qt.white; Qt.DrawLine 0 33 399 33 ] |}.

(** [paintEvent]: the pixmap handed to [painter.drawPixmap] (before
    scaling); a [QPixmap] object is truthy, so the guard always passes. *)
Definition paintEvent (w : t) : option Qt.QPixmap :=
  Some (drawPreviewWaveformPixmap w).

End PreviewWaveformWidget.

(* ================================================================== *)
(** * [class BeatBarWidget] *)

Module BeatBarWidget.
Import Eff.
Local Open Scope eff_scope.

Record t := {
  beat : Z;
  update_requests : nat
}.

Definition method (A : Type) : Type := @Eff.M t A.

Definition __init__ : t := {| beat := 0; update_requests := 0 |}.

Definition setBeat (b : Z) : method unit :=
  w <- get ;;
  when (negb (b =? beat w))
       (modify (fun w => {| beat := b;
                            update_requests := S (update_requests w) |})).

(** Lines 185-188: the body of the loop over [x]. *)
Definition draw_box (w : t) (box_gap box_width box_height : Z) (x : Z)
  : list Qt.paint_op :=
  let draw_x := x * (box_width + box_gap) in
  Qt.DrawRect draw_x 0 box_width box_height
    :: (if x =? beat w - 1
        then [ Qt.FillRect draw_x 0 box_width box_height Qt.yellow ]
        else []).

(** [paintEvent], on a widget of the given size: the calls issued on the
    widget's painter. *)
Definition paintEvent (size_width size_height : Z) (w : t) : list Qt.paint_op :=
  let box_gap := 6 in
  let box_width := (size_width - 1 - 3 * box_gap) / 4 in
  let box_height := size_height - 1 in
  [ Qt.SetBrushSolid; Qt.SetPen Qt.yellow ]
  ++ flat_map (draw_box w box_gap box_width box_height) (Py.range 0 4).

End BeatBarWidget.

(* ================================================================== *)
(** * [class PlayerWidget] *)

Module PlayerWidget.

(** What the artwork label shows: the grey 80x80 placeholder, or the pixmap
    loaded from the bytes given to [setArtwork]. *)
Inductive artwork :=
| pixmap_empty
| loaded_from (data : list byte).

(** The texts of the labels, the remembered track id, the LCD text, and the
    three rendering widgets the player owns. *)
Record t := {
  player_number : string;
  label_title : string;
  label_artist : string;
  label_album : string;
  label_info : string;
  label_player_number : string;
  label_bpm : string;
  label_pitch : string;
  label_master_style : string;
  label_artwork : artwork;
  track_id : option Z;
  time : string;
  beat_bar : BeatBarWidget.t;
  waveform : WaveformWidget.t;
  preview_waveform : PreviewWaveformWidget.t
}.

Definition set_metadata (title artist album : string) (p : t) : t :=
  {| player_number := player_number p;
     label_title := title; label_artist := artist; label_album := album;
     label_info := label_info p; label_player_number := label_player_number p;
     label_bpm := label_bpm p; label_pitch := label_pitch p;
     label_master_style := label_master_style p; label_artwork := label_artwork p;
     track_id := track_id p; time := time p; beat_bar := beat_bar p;
     waveform := waveform p; preview_waveform := preview_waveform p |}.

Definition set_info (info : string) (p : t) : t :=
  {| player_number := player_number p;
     label_title := label_title p; label_artist := label_artist p;
     label_album := label_album p;
     label_info := info; label_player_number := label_player_number p;
     label_bpm := label_bpm p; label_pitch := label_pitch p;
     label_master_style := label_master_style p; label_artwork := label_artwork p;
     track_id := track_id p; time := time p; beat_bar := beat_bar p;
     waveform := waveform p; preview_waveform := preview_waveform p |}.

Definition set_speed_labels (bpm pitch : string) (p : t) : t :=
  {| player_number := player_number p;
     label_title := label_title p; label_artist := label_artist p;
     label_album := label_album p;
     label_info := label_info p; label_player_number := label_player_number p;
     label_bpm := bpm; label_pitch := pitch;
     label_master_style := label_master_style p; label_artwork := label_artwork p;
     track_id := track_id p; time := time p; beat_bar := beat_bar p;
     waveform := waveform p; preview_waveform := preview_waveform p |}.

Definition set_master_style (style : string) (p : t) : t :=
  {| player_number := player_number p;
     label_title := label_title p; label_artist := label_artist p;
     label_album := label_album p;
     label_info := label_info p; label_player_number := label_player_number p;
     label_bpm := label_bpm p; label_pitch := label_pitch p;
     label_master_style := style; label_artwork := label_artwork p;
     track_id := track_id p; time := time p; beat_bar := beat_bar p;
     waveform := waveform p; preview_waveform := preview_waveform p |}.

Definition set_artwork (a : artwork) (p : t) : t :=
  {| player_number := player_number p;
     label_title := label_title p; label_artist := label_artist p;
     label_album := label_album p;
     label_info := label_info p; label_player_number := label_player_number p;
     label_bpm := label_bpm p; label_pitch := label_pitch p;
     label_master_style := label_master_style p; label_artwork := a;
     track_id := track_id p; time := time p; beat_bar := beat_bar p;
     waveform := waveform p; preview_waveform := preview_waveform p |}.

Definition set_track_id (v : option Z) (p : t) : t :=
  {| player_number := player_number p;
     label_title := label_title p; label_artist := label_artist p;
     label_album := label_album p;
     label_info := label_info p; label_player_number := label_player_number p;
     label_bpm := label_bpm p; label_pitch := label_pitch p;
     label_master_style := label_master_style p; label_artwork := label_artwork p;
     track_id := v; time := time p; beat_bar := beat_bar p;
     waveform := waveform p; preview_waveform := preview_waveform p |}.

Definition set_time (v : string) (p : t) : t :=
  {| player_number := player_number p;
     label_title := label_title p; label_artist := label_artist p;
     label_album := label_album p;
     label_info := label_info p; label_player_number := label_player_number p;
     label_bpm := label_bpm p; label_pitch := label_pitch p;
     label_master_style := label_master_style p; label_artwork := label_artwork p;
     track_id := track_id p; time := v; beat_bar := beat_bar p;
     waveform := waveform p; preview_waveform := preview_waveform p |}.

Definition set_beat_bar (v : BeatBarWidget.t) (p : t) : t :=
  {| player_number := player_number p;
     label_title := label_title p; label_artist := label_artist p;
     label_album := label_album p;
     label_info := label_info p; label_player_number := label_player_number p;
     label_bpm := label_bpm p; label_pitch := label_pitch p;
     label_master_style := label_master_style p; label_artwork := label_artwork p;
     track_id := track_id p; time := time p; beat_bar := v;
     waveform := waveform p; preview_waveform := preview_waveform p |}.

Definition set_waveform (v : WaveformWidget.t) (p : t) : t :=
  {| player_number := player_number p;
     label_title := label_title p; label_artist := label_artist p;
     label_album := label_album p;
     label_info := label_info p; label_player_number := label_player_number p;
     label_bpm := label_bpm p; label_pitch := label_pitch p;
     label_master_style := label_master_style p; label_artwork := label_artwork p;
     track_id := track_id p; time := time p; beat_bar := beat_bar p;
     waveform := v; preview_waveform := preview_waveform p |}.

Definition set_preview_waveform (v : PreviewWaveformWidget.t) (p : t) : t :=
  {| player_number := player_number p;
     label_title := label_title p; label_artist := label_artist p;
     label_album := label_album p;
     label_info := label_info p; label_player_number := label_player_number p;
     label_bpm := label_bpm p; label_pitch := label_pitch p;
     label_master_style := label_master_style p; label_artwork := label_artwork p;
     track_id := track_id p; time := time p; beat_bar := beat_bar p;
     waveform := waveform p; preview_waveform := v |}.

(** [100] as a float, for [(pitch-1)*100]. *)
Definition f_100 : Py.float := S754_finite false 7036874417766400 (-46).

Section Formatting.
(** [str.format] on floats is Python's own: ["{:.2f}".format(x)] and
    ["{:+.2f}%".format(x)] are taken as given. *)
Variable format_2f : Py.float -> string.
Variable format_signed_2f_percent : Py.float -> string.

(** [setSpeed(bpm, pitch)]: [bpm] is a string while the player reports no
    tempo, a float otherwise. *)
Definition setSpeed (bpm : string + Py.float) (pitch : Py.float) (p : t) : t :=
  match bpm with
  | inl _ => set_speed_labels "--.--" "+0.00%" p
  | inr bpm =>
      let pitched_bpm := Py.fmul bpm pitch in
      set_speed_labels
        (format_2f pitched_bpm)
        (format_signed_2f_percent
           (Py.fmul (SFsub Py.prec Py.emax pitch Py.f_1) f_100))
        p
  end.

(** [setMaster]: both branches of the source install the same style. *)
Definition setMaster (master : bool) (p : t) : t :=
  if master
  then set_master_style
         "QLabel { font: bold; qproperty-alignment: AlignCenter; background-color : green; color : black; }" p
  else set_master_style
         "QLabel { font: bold; qproperty-alignment: AlignCenter; background-color : green; color : black; }" p.

(** ["{} {} {}".format(model, fw, ip_addr)] *)
Definition setPlayerInfo (model ip_addr fw : string) (p : t) : t :=
  set_info (model ++ " " ++ fw ++ " " ++ ip_addr) p.

Definition setMetadata (title artist album : string) (p : t) : t :=
  set_metadata title artist album p.

Definition setArtwork (data : list byte) (p : t) : t :=
  set_artwork (loaded_from data) p.

Definition reset (p : t) : t :=
  setMaster false
    (setSpeed (inl EmptyString) Py.f_0
       (set_time "--:--"
          (set_info "No player connected"
             (set_metadata "Not loaded" EmptyString EmptyString p)))).

(** [PlayerWidget(player_number, parent)] *)
Definition __init__ (number : string) : t :=
  reset
    {| player_number := number;
       label_title := EmptyString; label_artist := EmptyString; label_album := EmptyString; label_info := EmptyString;
       label_player_number := number;
       label_bpm := EmptyString; label_pitch := "+10.00%";
       label_master_style := EmptyString;
       label_artwork := pixmap_empty;
       track_id := None;
       time := EmptyString;
       beat_bar := BeatBarWidget.__init__;
       waveform := WaveformWidget.new;
       preview_waveform := PreviewWaveformWidget.__init__ |}.
End Formatting.

End PlayerWidget.

(* ================================================================== *)
(** * [class Gui] *)

Module Gui.

(** ** Python dictionaries with integer keys, in insertion order *)

Definition dict (V : Type) : Type := list (Z * V).

Definition getitem {V} (k : Z) (d : dict V) : option V :=
  match find (fun kv => fst kv =? k) d with
  | Some kv => Some (snd kv)
  | None => None
  end.

(** [k in d] *)
Definition contains {V} (k : Z) (d : dict V) : bool :=
  match getitem k d with
  | Some _ => true
  | None => false
  end.

(** [d[k] = v] *)
Fixpoint setitem {V} (k : Z) (v : V) (d : dict V) : dict V :=
  match d with
  | [] => [(k, v)]
  | (k', v') :: rest =>
      if k' =? k then (k, v) :: rest else (k', v') :: setitem k v rest
  end.

(** [del d[k]] *)
Definition delitem {V} (k : Z) (d : dict V) : dict V :=
  filter (fun kv => negb (fst kv =? k)) d.

Definition keys {V} (d : dict V) : list Z := map fst d.

(** ** The surroundings *)

(** A client of the client list, as far as the GUI reads it. *)
Record Client := {
  model : string;
  ip_addr : string;
  fw : string;
  bpm : string + Py.float;
  pitch : Py.float;
  state : list string;
  beat : Z;
  track_id : Z;
  player_number : Z;
  player_slot : string
}.

(** [clientlist.getClient]: the client with that number, if any. *)
Definition ClientList : Type := Z -> option Client.

(** Requests sent to the database server; every one carries
    [self.dbserver_callback] as its callback. *)
Inductive dbs_request :=
| get_metadata (player_number : Z) (slot : string) (track_id : Z)
| get_preview_waveform (player_number : Z) (slot : string) (track_id : Z)
| get_beatgrid (player_number : Z) (slot : string) (track_id : Z)
| get_waveform (player_number : Z) (slot : string) (track_id : Z)
| get_artwork (player_number : Z) (slot : string) (artwork_id : Z).

(** A reply as [dbserver_callback] receives it: the request name together
    with the payload the server sends for it.  [unhandled] stands for every
    request name other than the five the callback compares against. *)
Inductive response :=
| metadata (title artist album : string) (artwork_id : option Z)
| artwork (data : list byte)
| waveform (data : list byte)
| preview_waveform (data : list byte)
| beatgrid (data : list byte)
| unhandled (request : string).

Definition request_of (r : response) : string :=
  match r with
  | metadata _ _ _ _ => "metadata"
  | artwork _ => "artwork"
  | waveform _ => "waveform"
  | preview_waveform _ => "preview_waveform"
  | beatgrid _ => "beatgrid"
  | unhandled request => request
  end.

Inductive log_level := DEBUG | INFO | WARNING.
Inductive log_arg := arg_int (n : Z) | arg_str (s : string).

(** A record written through [logging]: level, format string, arguments. *)
Record gui_log_record := {
  lr_level : log_level;
  lr_format : string;
  lr_args : list log_arg
}.

(** Exceptions a GUI method can end with. *)
Inductive exn :=
| WidgetError (e : Py.exn)       (* raised inside a widget method *)
| NameError (name : string)
| AttributeError.                (* attribute read on [None] *)

Inductive result :=
| Done
| Raised (e : exn).

(** The window: its players, the grid cell of each player widget, and what
    it has emitted (log records, database requests). *)
Record t := {
  players : dict PlayerWidget.t;
  layout : dict (Z * Z);
  log : list gui_log_record;
  requests : list dbs_request
}.

Definition set_players v (g : t) : t :=
  {| players := v; layout := layout g; log := log g; requests := requests g |}.
Definition set_layout v (g : t) : t :=
  {| players := players g; layout := v; log := log g; requests := requests g |}.
Definition logging (level : log_level) (format : string) (args : list log_arg) (g : t) : t :=
  {| players := players g; layout := layout g;
     log := log g ++ [{| lr_level := level; lr_format := format; lr_args := args |}];
     requests := requests g |}.
Definition send (rs : list dbs_request) (g : t) : t :=
  {| players := players g; layout := layout g; log := log g;
     requests := requests g ++ rs |}.

(** [str(n)] *)
Definition str (n : Z) : string := DecimalString.NilZero.string_of_int (Z.to_int n).

(** The grid cell [create_player] gives to a player. *)
Definition cell (player_number : Z) : Z * Z :=
  ((player_number - 1) / 2, (player_number - 1) mod 2).

Section Methods.
Variable format_2f : Py.float -> string.
Variable format_signed_2f_percent : Py.float -> string.
Variable Beatgrid_parse : list byte -> Py.construct_error + WaveformWidget.Beatgrid.

Definition create_player (player_number : Z) (g : t) : t :=
  if contains player_number (players g) then g
  else
    let widget :=
      PlayerWidget.__init__ format_2f format_signed_2f_percent
        ("Player " ++ str player_number) in
    logging INFO "Gui: Created player {}" [arg_int player_number]
      (set_layout (setitem player_number (cell player_number) (layout g))
         (set_players (setitem player_number widget (players g)) g)).

Definition remove_player (player_number : Z) (g : t) : t :=
  if negb (contains player_number (players g)) then g
  else
    logging INFO "Gui: Removed player {}" [arg_int player_number]
      (set_players (delitem player_number (players g))
         (set_layout (delitem player_number (layout g)) g)).

Definition __init__ : t :=
  create_player 1 {| players := []; layout := []; log := []; requests := [] |}.

(** [player_number not in range(1,5)] *)
Definition in_range_1_5 (n : Z) : bool := (1 <=? n) && (n <? 5).

Definition keepalive_slot (cl : ClientList) (player_number : Z) (g : t) : result * t :=
  if negb (in_range_1_5 player_number) then (Done, g)
  else
    let g := if negb (contains player_number (players g))
             then create_player player_number g else g in
    match cl player_number with
    | None => (Raised AttributeError, g)
    | Some c =>
        match getitem player_number (players g) with
        | None => (Done, g)   (* not reached: the player was just ensured *)
        | Some p =>
            (Done,
             set_players
               (setitem player_number
                  (PlayerWidget.setPlayerInfo (model c) (ip_addr c) EmptyString p)
                  (players g)) g)
        end
    end.

(** ["master" in c.state], on the list of state flags. *)
Definition is_master (c : Client) : bool :=
  existsb (String.eqb "master") (state c).

(** [p.track_id != c.track_id and c.track_id != 0] *)
Definition track_changed (p : PlayerWidget.t) (c : Client) : bool :=
  negb (match PlayerWidget.track_id p with
        | Some old => old =? track_id c
        | None => false
        end)
  && negb (track_id c =? 0).

Definition change_callback (clientlist : ClientList) (player_number : Z) (g : t)
  : result * t :=
  match getitem player_number (players g) with
  | None => (Done, g)
  | Some p =>
      match clientlist player_number with
      | None => (Raised AttributeError, g)
      | Some c =>
          let p := PlayerWidget.setSpeed format_2f format_signed_2f_percent
                     (bpm c) (pitch c) p in
          let p := PlayerWidget.setMaster (is_master c) p in
          match BeatBarWidget.setBeat (beat c) (PlayerWidget.beat_bar p) with
          | (Raise e, bar) =>
              (Raised (WidgetError e),
               set_players (setitem player_number (PlayerWidget.set_beat_bar bar p)
                                    (players g)) g)
          | (Return _, bar) =>
              let p := PlayerWidget.set_beat_bar bar p in
              let p := if (0 <? Z.of_nat (String.length (fw c)))
                       then PlayerWidget.setPlayerInfo (model c) (ip_addr c) (fw c) p
                       else p in
              if track_changed p c then
                let g :=
                  logging INFO
                    "Gui: track id of player %d changed to %d, requesting metadata"
                    [arg_int player_number; arg_int player_number] g in
                let p := PlayerWidget.set_track_id (Some (track_id c)) p in
                (Done,
                 send [ get_metadata (Gui.player_number c) (player_slot c) (track_id c);
                        get_preview_waveform (Gui.player_number c) (player_slot c) (track_id c);
                        get_beatgrid (Gui.player_number c) (player_slot c) (track_id c);
                        get_waveform (Gui.player_number c) (player_slot c) (track_id c) ]
                   (set_players (setitem player_number p (players g)) g))
              else
                (Done, set_players (setitem player_number p (players g)) g)
          end
      end
  end.

(** Run a widget method on one of the player's widgets and store the widget
    back; an exception of the method ends the callback. *)
Definition on_widget {W} (r : outcome unit * W) (store : W -> PlayerWidget.t)
           (player_number : Z) (g : t) : result * t :=
  let g' := set_players (setitem player_number (store (snd r)) (players g)) g in
  match fst r with
  | Return _ => (Done, g')
  | Raise e => (Raised (WidgetError e), g')
  end.

Definition dbserver_callback (reply : response) (player_number : Z)
           (slot : string) (item_id : Z) (g : t) : result * t :=
  let g := logging DEBUG "Gui: dbserver_callback %s %d"
             [arg_str (request_of reply); arg_int player_number] g in
  match getitem player_number (players g) with
  | None => (Done, g)
  | Some p =>
      match reply with
      | metadata title artist album artwork_id =>
          let g := set_players
                     (setitem player_number
                        (PlayerWidget.setMetadata title artist album p) (players g)) g in
          match artwork_id with
          | Some id =>
              if negb (id =? 0)
              then (Raised (NameError "player_slot"), g)
              else (Done, g)
          | None => (Done, g)
          end
      | artwork data =>
          (Done,
           set_players (setitem player_number (PlayerWidget.setArtwork data p)
                                (players g)) g)
      | waveform data =>
          on_widget (WaveformWidget.setData data (PlayerWidget.waveform p))
                    (fun w => PlayerWidget.set_waveform w p) player_number g
      | preview_waveform data =>
          on_widget (PreviewWaveformWidget.setData data (PlayerWidget.preview_waveform p))
                    (fun w => PlayerWidget.set_preview_waveform w p) player_number g
      | beatgrid data =>
          on_widget (WaveformWidget.setBeatgridData Beatgrid_parse data
                       (PlayerWidget.waveform p))
                    (fun w => PlayerWidget.set_waveform w p) player_number g
      | unhandled request =>
          (Done, logging WARNING "Gui: unhandled dbserver callback %s"
                         [arg_str request] g)
      end
  end.

(** The entry points through which the surrounding program drives the
    window. *)
Inductive event :=
| Keepalive (cl : ClientList) (player_number : Z)
| Change (clientlist : ClientList) (player_number : Z)
| Reply (reply : response) (player_number : Z) (slot : string) (item_id : Z)
| Remove (player_number : Z).

Definition handle (e : event) (g : t) : result * t :=
  match e with
  | Keepalive cl n => keepalive_slot cl n g
  | Change cl n => change_callback cl n g
  | Reply r n slot item => dbserver_callback r n slot item g
  | Remove n => (Done, remove_player n g)
  end.

(** Windows reachable from construction by any sequence of events, whether
    their handlers returned or raised. *)
Inductive reachable : t -> Prop :=
| reach_init : reachable __init__
| reach_event g e : reachable g -> reachable (snd (handle e g)).

End Methods.

End Gui.

(* ================================================================== *)
(** * Vocabulary of the properties *)

Module Spec.
Import WaveformWidget.

(** The entry points through which the surrounding program drives a
    [WaveformWidget]. *)
Inductive call :=
| SetData (data : list byte)
| SetBeatgridData (buf : list byte)
| SetFrameCount (frames : Z)
| SetPositionMarkerOffset (relative : Py.float)
| TimerEvent.

Section Parser.
Variable Beatgrid_parse : list byte -> Py.construct_error + Beatgrid.

Definition run_call (c : call) : method unit :=
  match c with
  | SetData data => setData data
  | SetBeatgridData buf => setBeatgridData Beatgrid_parse buf
  | SetFrameCount n => setFrameCount n
  | SetPositionMarkerOffset r => setPositionMarkerOffset r
  | TimerEvent => timerEvent
  end.

(** States a widget can be in after construction and any sequence of
    calls, whether they returned or raised. *)
Inductive reachable : t -> Prop :=
| reach_new : reachable new
| reach_call w c : reachable w -> reachable (state_of (run_call c w)).

(** States reached through calls that all returned. *)
Inductive reachable_ok : t -> Prop :=
| ok_new : reachable_ok new
| ok_call w c :
    reachable_ok w -> returns (run_call c w) ->
    reachable_ok (state_of (run_call c w)).
End Parser.







(** The marker offset agrees with the relative position and the window
    width: [int(position_marker * frames)] evaluates to it. *)
Definition marker_consistent (w : t) : Prop :=
  exists prod,
    Py.mul_float_int (position_marker w) (frames w) = inr prod /\
    Py.int_of_float prod = inr (position_marker_offset w).

(** The same with [round] in place of [int], as the specification words
    it. *)
Definition marker_rounded (w : t) : Prop :=
  exists prod,
    Py.mul_float_int (position_marker w) (frames w) = inr prod /\
    Py.round_half_even prod = inr (position_marker_offset w).




(** The bar of the preview strip for sample [x] of buffer [d]. *)
Definition preview_stroke (d : list byte) (x : Z) : Qt.stroke :=
  {| Qt.st_pen :=
       Some (Qt.QColor (36 * (Py.getitem d (2 * x + 1) + 1))
                       (36 * (Py.getitem d (2 * x + 1) + 1)) 255);
     Qt.st_x1 := x; Qt.st_y1 := 31;
     Qt.st_x2 := x; Qt.st_y2 := 31 - Py.getitem d (2 * x) |}.

Definition baseline : Qt.stroke :=
  {| Qt.st_pen := Some Qt.white;
     Qt.st_x1 := 0; Qt.st_y1 := 33; Qt.st_x2 := 399; Qt.st_y2 := 33 |}.

(** [k] calls of [setProgress] with the same value. *)
Fixpoint repeat_setProgress (k : nat) (p : Py.float)
         (w : PreviewWaveformWidget.t) : PreviewWaveformWidget.t :=
  match k with
  | O => w
  | S k' => repeat_setProgress k' p (state_of (PreviewWaveformWidget.setProgress p w))
  end.

(** Box [x] (0-based) of the phrase indicator on a widget of the given
    size. *)
Definition box_width (size_width : Z) : Z := (size_width - 1 - 3 * 6) / 4.
Definition box (size_width size_height : Z) (x : Z) : Z * Z * Z * Z :=
  (x * (box_width size_width + 6), 0, box_width size_width, size_height - 1).

(** ** Rounding to nearest, ties to even, on integers *)

(** [rne M n]: the integer nearest to [M / 2^n]. *)
Definition rne (M n : Z) : Z :=
  let q := M / 2 ^ n in
  let r := M mod 2 ^ n in
  match 2 * r ?= 2 ^ n with
  | Lt => q
  | Gt => q + 1
  | Eq => if Z.even q then q else q + 1
  end.

(** Number of low bits a positive integer loses when it is rounded to 53
    significant bits with at least [nmin] bits dropped, and the rounded
    integer itself. *)
Definition drop (nmin M : Z) : Z := Z.max (Z.log2 M + 1 - 53) nmin.
Definition round53 (nmin M : Z) : Z := rne M (drop nmin M) * 2 ^ drop nmin M.

End Spec.

(** Further vocabulary, for the properties beyond the specification. *)
Module View.
Import WaveformWidget.

(** [k] consecutive timer ticks. *)
Fixpoint ticks (k : nat) (w : t) : t :=
  match k with
  | O => w
  | S k' => ticks k' (state_of (timerEvent w))
  end.

(** A colour whose three channels are accepted by [QColor(r, g, b)]. *)
Definition valid_color (c : Qt.color) : Prop :=
  match c with
  | Qt.QColor r g b => 0 <= r <= 255 /\ 0 <= g <= 255 /\ 0 <= b <= 255
  | _ => True
  end.


(** [k] calls of [BeatBarWidget.setBeat] with the same value. *)
Fixpoint repeat_setBeat (k : nat) (b : Z) (w : BeatBarWidget.t) : BeatBarWidget.t :=
  match k with
  | O => w
  | S k' => repeat_setBeat k' b (state_of (BeatBarWidget.setBeat b w))
  end.

End View.

(** Vocabulary for the window. *)
Module Window.

(** [g'] is [g] with, at most, the widget of player [n] replaced; the
    player existed already. *)
Definition updated_at (n : Z) (g g' : Gui.t) : Prop :=
  Gui.layout g' = Gui.layout g /\
  (Gui.players g' = Gui.players g \/
   exists p', Gui.contains n (Gui.players g) = true /\
              Gui.players g' = Gui.setitem n p' (Gui.players g)).

(** The invariant of the window: players are distinct, numbered 1 to 4, and
    the layout holds exactly them, each in the cell of its number. *)
Definition ok (g : Gui.t) : Prop :=
  NoDup (Gui.keys (Gui.players g)) /\
  Gui.keys (Gui.layout g) = Gui.keys (Gui.players g) /\
  (forall n, In n (Gui.keys (Gui.players g)) -> 1 <= n <= 4) /\
  (forall n c, Gui.getitem n (Gui.layout g) = Some c -> c = Gui.cell n).


(** The four requests a track change triggers, in the order sent. *)
Definition track_requests (c : Gui.Client) : list Gui.dbs_request :=
  [ Gui.get_metadata (Gui.player_number c) (Gui.player_slot c) (Gui.track_id c);
    Gui.get_preview_waveform (Gui.player_number c) (Gui.player_slot c) (Gui.track_id c);
    Gui.get_beatgrid (Gui.player_number c) (Gui.player_slot c) (Gui.track_id c);
    Gui.get_waveform (Gui.player_number c) (Gui.player_slot c) (Gui.track_id c) ].

End Window.

(** Proof automation: unfolding of the monad, and of field reads over
    field writes. *)
Ltac unfold_eff :=
  cbv beta iota delta [Eff.bind Eff.ret Eff.get Eff.modify Eff.raise Eff.lift
                       Eff.when Eff.try_except] in *.

Ltac simpl_fields :=
  cbn [state_of fst snd
       WaveformWidget.waveform_height WaveformWidget.waveform_center
       WaveformWidget.waveform_px_per_s WaveformWidget.waveform_data
       WaveformWidget.beatgrid_data WaveformWidget.pixmap WaveformWidget.offset
       WaveformWidget.position_marker WaveformWidget.frames
       WaveformWidget.position_marker_offset WaveformWidget.log
       WaveformWidget.update_requests WaveformWidget.timer
       WaveformWidget.set_waveform_data WaveformWidget.set_beatgrid_data
       WaveformWidget.set_pixmap WaveformWidget.set_offset
       WaveformWidget.set_position_marker WaveformWidget.set_frames
       WaveformWidget.set_position_marker_offset WaveformWidget.set_log
       WaveformWidget.set_update_requests WaveformWidget.set_timer] in *.
(* ================================================================== *)
(** * Auxiliary facts *)

Section ListFacts.

Lemma range_length lo hi : List.length (Py.range lo hi) = Z.to_nat (hi - lo).
Proof. unfold Py.range. now rewrite length_map, length_seq. Qed.

Lemma range_nth_error lo hi (i : nat) :
  (i < Z.to_nat (hi - lo))%nat ->
  nth_error (Py.range lo hi) i = Some (lo + Z.of_nat i).
Proof.
  intros Hi. unfold Py.range.
  rewrite nth_error_map, nth_error_seq.
  destruct (Nat.ltb_spec i (Z.to_nat (hi - lo))) as [_|H]; [reflexivity|lia].
Qed.



Lemma byte_val_range b : 0 <= Py.byte_val b < 256.
Proof. destruct b; vm_compute; split; congruence. Qed.



End ListFacts.

(** ** Strokes and rectangles of the compositor's call sequences *)

Section Compositor.
Import WaveformWidget.







(** What a composition leaves in the widget, for a state that holds a
    sample buffer. *)
Lemma renderWaveformPixmap_eq w data :
  waveform_data w = Some data ->
  renderWaveformPixmap w =
  (Return tt,
   set_log (log w ++ [LogInfo "rendering waveform"; LogInfo "rendering waveform done"])
     (set_pixmap
        (Some {| Qt.pm_width := position_marker_offset w + Py.len data;
                 Qt.pm_height := waveform_height w;
                 Qt.pm_ops := render_ops w data (position_marker_offset w + Py.len data) |})
        w)).
Proof.
  intros Hd. unfold renderWaveformPixmap, Eff.bind, logging_info, Eff.modify, Eff.get.
  simpl. rewrite Hd. simpl.
  unfold set_log, set_pixmap, render_ops; simpl.
  rewrite <- app_assoc. reflexivity.
Qed.

Lemma setData_eq w data :
  setData data w =
  renderWaveformPixmap (set_waveform_data (Some (skipn 20 data)) (set_pixmap None w)).
Proof. reflexivity. Qed.


End Compositor.

(* ================================================================== *)
(** * Detail waveform decoding *)




(* ================================================================== *)
(** * Beat ticks *)




(* ================================================================== *)
(** * Effects of the entry points on the widget state *)


Section EntryPoints.
Import WaveformWidget.

Lemma scroll_step_product :
  Py.mul_int_float 142 Py.f_0_04 = inr (S754_finite false 6395111470866104 (-50)).
Proof. vm_compute. reflexivity. Qed.

Lemma scroll_step_int :
  Py.int_of_float (S754_finite false 6395111470866104 (-50)) = inr 5.
Proof. vm_compute. reflexivity. Qed.

Lemma timerEvent_eq w :
  timerEvent w
  = (Return tt, set_update_requests (S (update_requests w)) (set_offset (offset w + 5) w)).
Proof.
  unfold timerEvent, update. unfold_eff.
  rewrite scroll_step_product. unfold_eff.
  rewrite scroll_step_int. reflexivity.
Qed.




Section Parser.
Variable Beatgrid_parse : list byte -> Py.construct_error + Beatgrid.

Lemma setBeatgridData_eq buf w :
  setBeatgridData Beatgrid_parse buf w
  = let w1 :=
      match Beatgrid_parse buf with
      | inr bg => set_beatgrid_data (Some bg) w
      | inl e =>
          set_beatgrid_data None
            (set_log (log w ++ [LogError "Gui: failed to parse beatgrid data: %s"
                                         (Py.ConstructError e)]) w)
      end in
    if truthy_bytes (waveform_data w) then renderWaveformPixmap w1
    else (Return tt, w1).
Proof.
  unfold setBeatgridData, parse, logging_error. unfold_eff.
  destruct (Beatgrid_parse buf) as [e|bg]; cbn [is_parse_error]; cbv beta iota zeta;
    change (waveform_data (set_beatgrid_data _ _)) with (waveform_data w);
    destruct (truthy_bytes (waveform_data w)); reflexivity.
Qed.

Lemma truthy_bytes_some d :
  truthy_bytes d = true -> exists b l, d = Some (b :: l).
Proof. destruct d as [[|b l]|]; cbn; try discriminate. eauto. Qed.





End Parser.

End EntryPoints.


(* ================================================================== *)
(** * Beat-grid parse failures *)



(* ================================================================== *)
(** * When the composited image is rebuilt *)




(* ================================================================== *)
(** * Refresh timer *)

(** C6, as amended.  The widget starts a 40 ms timer; every tick returns,
    advances [offset] by exactly [int(142 * 0.04)], which is 5 (the product
    truncated toward zero), requests one redraw, and touches nothing
    else. *)
Theorem timer_tick_advances_by_truncated_step :
  forall w : WaveformWidget.t,
    let r := WaveformWidget.timerEvent w in
    WaveformWidget.timer WaveformWidget.new = Some 40 /\
    returns r /\
    (exists prod, Py.mul_int_float 142 Py.f_0_04 = inr prod /\
                  Py.int_of_float prod = inr 5) /\
    WaveformWidget.offset (state_of r) = WaveformWidget.offset w + 5 /\
    WaveformWidget.update_requests (state_of r) = S (WaveformWidget.update_requests w) /\
    state_of r
    = WaveformWidget.set_update_requests (S (WaveformWidget.update_requests w))
        (WaveformWidget.set_offset (WaveformWidget.offset w + 5) w).
Proof.
  intros w r. subst r. rewrite timerEvent_eq.
  split; [reflexivity|].
  split; [eexists; reflexivity|].
  split; [eexists; split; [apply scroll_step_product|apply scroll_step_int]|].
  repeat split.
Qed.

(** C6, as stated, fails: [round(142 * 0.04)] is 6, while a tick advances
    the offset by 5. *)
Lemma timer_tick_counterexample :
  let w := WaveformWidget.new in
  let w' := state_of (WaveformWidget.timerEvent w) in
  (exists prod, Py.mul_int_float 142 Py.f_0_04 = inr prod /\
                Py.round_half_even prod = inr 6) /\
  WaveformWidget.offset w' - WaveformWidget.offset w = 5 /\
  WaveformWidget.offset w' <> WaveformWidget.offset w + 6.
Proof.
  cbv zeta. rewrite timerEvent_eq. split.
  - eexists. split; [apply scroll_step_product|]. vm_compute. reflexivity.
  - split; [reflexivity|]. vm_compute. discriminate.
Qed.

(* ================================================================== *)
(** * Phrase indicator *)

Lemma range_0_4 : Py.range 0 4 = [0; 1; 2; 3].
Proof. reflexivity. Qed.

(** C8.  After [setBeat b] the indicator paints the outlines of four boxes,
    and fills the [b]-th of them when [1 <= b <= 4]; for any other [b] (0,
    5, negative, ...) it fills none. *)
Theorem phrase_indicator_fills_current_beat :
  forall (w : BeatBarWidget.t) (b size_width size_height : Z),
    let r := BeatBarWidget.setBeat b w in
    let ops := BeatBarWidget.paintEvent size_width size_height (state_of r) in
    returns r /\
    BeatBarWidget.beat (state_of r) = b /\
    Qt.draw_rects ops
    = map (Spec.box size_width size_height) [0; 1; 2; 3] /\
    Qt.fill_rects ops
    = if (1 <=? b) && (b <=? 4)
      then [ (let '(x, y, bw, bh) := Spec.box size_width size_height (b - 1) in
              (x, y, bw, bh, Qt.yellow)) ]
      else [].
Proof.
  intros w b sw sh r ops.
  assert (Hb : BeatBarWidget.beat (state_of r) = b).
  { subst r. unfold BeatBarWidget.setBeat. unfold_eff.
    destruct (Z.eqb_spec b (BeatBarWidget.beat w)) as [->|Hne]; reflexivity. }
  split.
  { subst r. unfold BeatBarWidget.setBeat. unfold_eff.
    destruct (negb (b =? BeatBarWidget.beat w)); eexists; reflexivity. }
  split; [exact Hb|].
  subst ops. unfold BeatBarWidget.paintEvent. rewrite range_0_4.
  cbn [flat_map app]. unfold BeatBarWidget.draw_box. rewrite Hb.
  unfold Spec.box, Spec.box_width.
  split.
  - destruct (0 =? b - 1), (1 =? b - 1), (2 =? b - 1), (3 =? b - 1); reflexivity.
  - destruct (Z.eqb_spec 0 (b - 1)) as [H0|H0];
    destruct (Z.eqb_spec 1 (b - 1)) as [H1|H1];
    destruct (Z.eqb_spec 2 (b - 1)) as [H2|H2];
    destruct (Z.eqb_spec 3 (b - 1)) as [H3|H3]; try lia;
    destruct (Z.leb_spec 1 b); destruct (Z.leb_spec b 4); try lia;
    cbn [andb app Qt.fill_rects];
    rewrite <- ?H0, <- ?H1, <- ?H2, <- ?H3; reflexivity.
Qed.

(* ================================================================== *)
(** * Preview strip *)

Lemma strokes_preview_bars d (l : list Z) pen :
  Qt.strokes_from pen
    (flat_map (PreviewWaveformWidget.draw_preview_sample d) l
     ++ [Qt.SetPen Qt.white; Qt.DrawLine 0 33 399 33])
  = map (Spec.preview_stroke d) l ++ [Spec.baseline].
Proof.
  revert pen. induction l as [|x l IH]; intros pen.
  - reflexivity.
  - cbn [flat_map PreviewWaveformWidget.draw_preview_sample app Qt.strokes_from map].
    rewrite IH. reflexivity.
Qed.

(** C4, as amended.  The preview image is always a 400x34 pixmap with the
    black fill and the white baseline at [y = 33].  For a buffer shorter
    than 800 bytes nothing else is drawn: no bar.  For a buffer of 800 bytes
    or more (so in particular of exactly 800) exactly 400 bars are drawn
    before the baseline; bar [x] goes from [(x, 31)] up to
    [(x, 31 - data[2x])] with colour level [data[2x+1] + 1]. *)
Theorem preview_bars_need_800_bytes :
  forall (w : PreviewWaveformWidget.t) (d : list byte),
    let w' := state_of (PreviewWaveformWidget.setData d w) in
    let pm := PreviewWaveformWidget.drawPreviewWaveformPixmap w' in
    PreviewWaveformWidget.paintEvent w' = Some pm /\
    Qt.pm_width pm = 400 /\ Qt.pm_height pm = 34 /\
    (Py.len d < 800 ->
     Qt.pm_ops pm = [ Qt.Fill Qt.black; Qt.SetBrushSolid;
                      Qt.SetPen Qt.white; Qt.DrawLine 0 33 399 33 ] /\
     Qt.strokes (Qt.pm_ops pm) = [Spec.baseline]) /\
    (800 <= Py.len d ->
     Qt.strokes (Qt.pm_ops pm)
     = map (Spec.preview_stroke d) (Py.range 0 400) ++ [Spec.baseline] /\
     List.length (Qt.strokes (Qt.pm_ops pm)) = 401%nat /\
     forall x : nat,
       (x < 400)%nat ->
       nth_error (Qt.strokes (Qt.pm_ops pm)) x = Some (Spec.preview_stroke d (Z.of_nat x))).
Proof.
  intros w d w' pm. subst pm w'.
  unfold PreviewWaveformWidget.setData, PreviewWaveformWidget.update. unfold_eff.
  cbn [state_of snd PreviewWaveformWidget.data].
  split; [reflexivity|]. split; [reflexivity|]. split; [reflexivity|].
  unfold PreviewWaveformWidget.drawPreviewWaveformPixmap.
  cbn [Qt.pm_ops PreviewWaveformWidget.data].
  split.
  - intros Hlt.
    assert (He : PreviewWaveformWidget.enough_data (Some d) = false).
    { destruct d as [|b d]; [reflexivity|].
      unfold PreviewWaveformWidget.enough_data.
      apply Z.leb_gt. exact Hlt. }
    rewrite He. split; reflexivity.
  - intros Hge.
    assert (He : PreviewWaveformWidget.enough_data (Some d) = true).
    { destruct d as [|b d]; [unfold Py.len in Hge; cbn in Hge; lia|].
      unfold PreviewWaveformWidget.enough_data.
      apply Z.leb_le. exact Hge. }
    rewrite He.
    assert (Hs : Qt.strokes
                   ([Qt.Fill Qt.black; Qt.SetBrushSolid]
                    ++ flat_map (PreviewWaveformWidget.draw_preview_sample d) (Py.range 0 400)
                    ++ [Qt.SetPen Qt.white; Qt.DrawLine 0 33 399 33])
                 = map (Spec.preview_stroke d) (Py.range 0 400) ++ [Spec.baseline]).
    { unfold Qt.strokes. cbn [app Qt.strokes_from]. apply strokes_preview_bars. }
    rewrite Hs. split; [reflexivity|]. split.
    + rewrite length_app, length_map, range_length. reflexivity.
    + intros x Hx.
      rewrite nth_error_app1 by (rewrite length_map, range_length; exact Hx).
      rewrite nth_error_map, range_nth_error by exact Hx.
      reflexivity.
Qed.

(** C4, as stated, fails: a 799-byte buffer does not suppress all visual
    output; the widget still paints the black strip with its white
    baseline. *)
Lemma preview_short_buffer_counterexample :
  let d := repeat x05 799 in
  let w := state_of (PreviewWaveformWidget.setData d PreviewWaveformWidget.__init__) in
  Py.len d = 799 /\
  exists pm,
    PreviewWaveformWidget.paintEvent w = Some pm /\
    Qt.pm_ops pm = [ Qt.Fill Qt.black; Qt.SetBrushSolid;
                     Qt.SetPen Qt.white; Qt.DrawLine 0 33 399 33 ] /\
    Qt.strokes (Qt.pm_ops pm) = [Spec.baseline] /\
    Qt.strokes (Qt.pm_ops pm) <> [].
Proof.
  cbv zeta. split; [reflexivity|].
  eexists. split; [reflexivity|].
  split; [vm_compute; reflexivity|].
  split; [vm_compute; reflexivity|].
  vm_compute. discriminate.
Qed.

(* ================================================================== *)
(** * Position marker offset *)

Section MarkerOffset.
Import WaveformWidget.

Lemma setPositionMarkerOffset_returns_inv rel w :
  returns (setPositionMarkerOffset rel w) ->
  exists prod n,
    Py.mul_float_int rel (frames w) = inr prod /\
    Py.int_of_float prod = inr n /\
    state_of (setPositionMarkerOffset rel w)
    = set_position_marker_offset n (set_position_marker rel w).
Proof.
  unfold setPositionMarkerOffset. unfold_eff. simpl_fields.
  destruct (Py.mul_float_int rel (frames w)) as [e|prod] eqn:Hprod.
  - intros [a Ha]. discriminate.
  - cbv beta iota. destruct (Py.int_of_float prod) as [e|n] eqn:Hn.
    + intros [a Ha]. discriminate.
    + intros _. exists prod, n. repeat split. exact Hn.
Qed.

Lemma setPositionMarkerOffset_consistent rel w :
  returns (setPositionMarkerOffset rel w) ->
  let w' := state_of (setPositionMarkerOffset rel w) in
  position_marker w' = rel /\ frames w' = frames w /\ Spec.marker_consistent w'.
Proof.
  intros Hret. destruct (setPositionMarkerOffset_returns_inv rel w Hret)
    as (prod & n & Hprod & Hn & Hst).
  cbv zeta. rewrite Hst. split; [reflexivity|]. split; [reflexivity|].
  exists prod. split; [exact Hprod|exact Hn].
Qed.

Lemma setFrameCount_eq n w :
  setFrameCount n w = setPositionMarkerOffset (position_marker w) (set_frames n w).
Proof. reflexivity. Qed.

Lemma setFrameCount_consistent n w :
  returns (setFrameCount n w) ->
  let w' := state_of (setFrameCount n w) in
  position_marker w' = position_marker w /\ frames w' = n /\ Spec.marker_consistent w'.
Proof.
  rewrite setFrameCount_eq. intros Hret.
  exact (setPositionMarkerOffset_consistent _ _ Hret).
Qed.

Lemma new_eq :
  new = set_timer (Some 40)
          (set_position_marker_offset 750
             (set_position_marker Py.f_0_5 (set_frames 1500 fresh))).
Proof. vm_compute. reflexivity. Qed.

Lemma new_consistent : Spec.marker_consistent new.
Proof.
  exists (S754_finite false 6597069766656000 (-43)).
  split; vm_compute; reflexivity.
Qed.

Section Parser.
Variable Beatgrid_parse : list byte -> Py.construct_error + Beatgrid.

Lemma view_fields_kept c w :
  match c with
  | Spec.SetFrameCount _ | Spec.SetPositionMarkerOffset _ => True
  | _ =>
      let w' := state_of (Spec.run_call Beatgrid_parse c w) in
      position_marker w' = position_marker w /\
      frames w' = frames w /\
      position_marker_offset w' = position_marker_offset w
  end.
Proof.
  destruct c as [data|buf|n|rel|]; cbn [Spec.run_call]; try exact I.
  - rewrite setData_eq, (renderWaveformPixmap_eq _ (skipn 20 data)) by reflexivity.
    repeat split.
  - rewrite setBeatgridData_eq. cbv zeta.
    destruct (truthy_bytes (waveform_data w)) eqn:Ht.
    + destruct (truthy_bytes_some _ Ht) as (b & l & Hd).
      erewrite renderWaveformPixmap_eq
        by (destruct (Beatgrid_parse buf); exact Hd).
      destruct (Beatgrid_parse buf); repeat split.
    + destruct (Beatgrid_parse buf); repeat split.
  - rewrite timerEvent_eq. repeat split.
Qed.

Lemma reachable_ok_consistent w :
  Spec.reachable_ok Beatgrid_parse w -> Spec.marker_consistent w.
Proof.
  induction 1 as [|w c Hw IH Hret].
  - exact new_consistent.
  - pose proof (view_fields_kept c w) as Hkept.
    destruct c as [data|buf|n|rel|]; cbn [Spec.run_call] in *.
    + destruct Hkept as (Hp & Hf & Ho). unfold Spec.marker_consistent.
      rewrite Hp, Hf, Ho. exact IH.
    + destruct Hkept as (Hp & Hf & Ho). unfold Spec.marker_consistent.
      rewrite Hp, Hf, Ho. exact IH.
    + apply setFrameCount_consistent. exact Hret.
    + apply setPositionMarkerOffset_consistent. exact Hret.
    + destruct Hkept as (Hp & Hf & Ho). unfold Spec.marker_consistent.
      rewrite Hp, Hf, Ho. exact IH.
Qed.
End Parser.
End MarkerOffset.

(** C5, as amended.  In every state reached from construction through calls
    that returned, [position_marker_offset] is
    [int(position_marker * frames)]: the float product truncated toward
    zero.  [setFrameCount] and [setPositionMarkerOffset] store their
    argument and recompute the offset from it, and no other entry point
    changes any of the three fields. *)
Theorem marker_offset_is_truncated_product :
  forall (Beatgrid_parse : list byte -> Py.construct_error + WaveformWidget.Beatgrid)
         (w : WaveformWidget.t),
    Spec.reachable_ok Beatgrid_parse w ->
    Spec.marker_consistent w /\
    (forall n,
        let r := WaveformWidget.setFrameCount n w in
        returns r ->
        WaveformWidget.frames (state_of r) = n /\
        WaveformWidget.position_marker (state_of r) = WaveformWidget.position_marker w /\
        Spec.marker_consistent (state_of r)) /\
    (forall rel,
        let r := WaveformWidget.setPositionMarkerOffset rel w in
        returns r ->
        WaveformWidget.position_marker (state_of r) = rel /\
        WaveformWidget.frames (state_of r) = WaveformWidget.frames w /\
        Spec.marker_consistent (state_of r)) /\
    (forall c,
        match c with
        | Spec.SetFrameCount _ | Spec.SetPositionMarkerOffset _ => True
        | _ =>
            let w' := state_of (Spec.run_call Beatgrid_parse c w) in
            WaveformWidget.position_marker w' = WaveformWidget.position_marker w /\
            WaveformWidget.frames w' = WaveformWidget.frames w /\
            WaveformWidget.position_marker_offset w'
            = WaveformWidget.position_marker_offset w
        end).
Proof.
  intros parse w Hw. split; [|split; [|split]].
  - exact (reachable_ok_consistent parse w Hw).
  - intros n r Hret.
    destruct (setFrameCount_consistent n w Hret) as (Hp & Hf & Hc). auto.
  - intros rel r Hret.
    destruct (setPositionMarkerOffset_consistent rel w Hret) as (Hp & Hf & Hc). auto.
  - intros c. exact (view_fields_kept parse c w).
Qed.

Lemma marker_offset_is_truncated_product_witness :
  let parse := fun _ : list byte => @inl _ WaveformWidget.Beatgrid Py.RangeError in
  let w := state_of (WaveformWidget.setFrameCount 3000 WaveformWidget.new) in
  Spec.reachable_ok parse w /\ Spec.marker_consistent w /\
  WaveformWidget.position_marker_offset w = 1500.
Proof.
  intros parse w.
  assert (Hok : Spec.reachable_ok parse w).
  { apply (Spec.ok_call parse WaveformWidget.new (Spec.SetFrameCount 3000)).
    - apply Spec.ok_new.
    - eexists. vm_compute. reflexivity. }
  split; [exact Hok|]. split.
  - exact (proj1 (marker_offset_is_truncated_product parse w Hok)).
  - vm_compute. reflexivity.
Defined.

(** C5, as stated, fails: after [setPositionMarkerOffset(2**-11)] on a new
    widget (1500 frames) the product is 0.732421875; the offset is 0, while
    rounding would give 1. *)
Lemma marker_offset_counterexample :
  let rel := S754_finite false 4503599627370496 (-63) in
  let r := WaveformWidget.setPositionMarkerOffset rel WaveformWidget.new in
  returns r /\
  WaveformWidget.position_marker_offset (state_of r) = 0 /\
  (exists prod,
      Py.mul_float_int (WaveformWidget.position_marker (state_of r))
                       (WaveformWidget.frames (state_of r)) = inr prod /\
      Py.round_half_even prod = inr 1) /\
  ~ Spec.marker_rounded (state_of r).
Proof.
  cbv zeta. split; [eexists; vm_compute; reflexivity|].
  split; [vm_compute; reflexivity|].
  split.
  - eexists. split; vm_compute; reflexivity.
  - intros (prod & Hprod & Hround).
    vm_compute in Hprod. injection Hprod as <-.
    vm_compute in Hround. discriminate.
Qed.

(* ================================================================== *)
(** * Rounding of binary64 products *)

Section Rounding.

(** ** Nearest-even rounding on integers *)

Lemma rne_bounds M n :
  0 <= n -> M / 2 ^ n <= Spec.rne M n <= M / 2 ^ n + 1.
Proof.
  intros Hn. unfold Spec.rne.
  destruct (2 * (M mod 2 ^ n) ?= 2 ^ n); [destruct (Z.even _)| |]; lia.
Qed.

Lemma rne_nonneg M n : 0 <= n -> 0 <= M -> 0 <= Spec.rne M n.
Proof.
  intros Hn HM. pose proof (rne_bounds M n Hn).
  assert (0 <= M / 2 ^ n) by (apply Z.div_pos; lia). lia.
Qed.

Lemma rne_exact K n : 0 <= n -> Spec.rne (K * 2 ^ n) n = K.
Proof.
  intros Hn. unfold Spec.rne.
  assert (Hp : 0 < 2 ^ n) by lia.
  rewrite Z.div_mul, Z.mod_mul by lia.
  destruct (Z.compare_spec (2 * 0) (2 ^ n)); lia.
Qed.

Lemma rne_mono n M1 M2 :
  0 <= n -> M1 <= M2 -> Spec.rne M1 n <= Spec.rne M2 n.
Proof.
  intros Hn Hle.
  assert (Hp : 0 < 2 ^ n) by lia.
  pose proof (Z.div_le_mono M1 M2 (2 ^ n) Hp Hle) as Hq.
  destruct (Z.eq_dec (M1 / 2 ^ n) (M2 / 2 ^ n)) as [Heq|Hne].
  - assert (Hr : M1 mod 2 ^ n <= M2 mod 2 ^ n).
    { pose proof (Z.div_mod M1 (2 ^ n) ltac:(lia)).
      pose proof (Z.div_mod M2 (2 ^ n) ltac:(lia)).
      rewrite Heq in *. lia. }
    unfold Spec.rne. rewrite Heq.
    destruct (Z.compare_spec (2 * (M1 mod 2 ^ n)) (2 ^ n));
      destruct (Z.compare_spec (2 * (M2 mod 2 ^ n)) (2 ^ n));
      destruct (Z.even (M2 / 2 ^ n)); lia.
  - pose proof (rne_bounds M1 n Hn). pose proof (rne_bounds M2 n Hn). lia.
Qed.

Lemma rne_scale M n k :
  0 <= n -> 0 <= k -> Spec.rne (M * 2 ^ k) (n + k) = Spec.rne M n.
Proof.
  intros Hn Hk. unfold Spec.rne.
  assert (Hpn : 0 < 2 ^ n) by lia.
  assert (Hpk : 0 < 2 ^ k) by lia.
  rewrite Z.pow_add_r by lia.
  rewrite Z.div_mul_cancel_r by lia.
  rewrite Z.mul_mod_distr_r by lia.
  replace (2 * (M mod 2 ^ n * 2 ^ k) ?= 2 ^ n * 2 ^ k)
    with (2 * (M mod 2 ^ n) ?= 2 ^ n); [reflexivity|].
  symmetry.
  destruct (Z.compare_spec (2 * (M mod 2 ^ n)) (2 ^ n)) as [H|H|H].
  - apply Z.compare_eq_iff. nia.
  - apply Z.compare_lt_iff. nia.
  - apply Z.compare_gt_iff. nia.
Qed.

(** ** Rounding to 53 significant bits is monotone *)

Lemma drop_mono nmin M1 M2 :
  0 < M1 -> M1 <= M2 -> Spec.drop nmin M1 <= Spec.drop nmin M2.
Proof.
  intros H1 Hle. unfold Spec.drop.
  pose proof (Z.log2_le_mono M1 M2 Hle). lia.
Qed.

Lemma round53_mono nmin M1 M2 :
  0 < M1 -> M1 <= M2 -> 0 <= Spec.drop nmin M1 ->
  Spec.round53 nmin M1 <= Spec.round53 nmin M2.
Proof.
  intros H1 Hle Hd1.
  pose proof (drop_mono nmin M1 M2 H1 Hle) as Hd.
  unfold Spec.round53.
  destruct (Z.eq_dec (Spec.drop nmin M1) (Spec.drop nmin M2)) as [Heq|Hne].
  - rewrite Heq. apply Z.mul_le_mono_nonneg_r; [lia|].
    apply rne_mono; lia.
  - set (d1 := Spec.drop nmin M1) in *. set (d2 := Spec.drop nmin M2) in *.
    assert (Hlt : d1 < d2) by lia.
    assert (Hd2 : d2 = Z.log2 M2 + 1 - 53).
    { subst d1 d2. unfold Spec.drop in *. lia. }
    assert (Hd1' : Z.log2 M1 + 1 - 53 <= d1).
    { subst d1. unfold Spec.drop. lia. }
    (* M1 lies below 2^(d1+53), M2 at or above 2^(d2+52) *)
    assert (HM1 : M1 <= 2 ^ 53 * 2 ^ d1).
    { pose proof (Z.log2_spec M1 H1) as [_ Hup].
      rewrite <- Z.pow_add_r by lia.
      apply Z.lt_le_incl. eapply Z.lt_le_trans; [exact Hup|].
      apply Z.pow_le_mono_r; lia. }
    assert (HM2 : 2 ^ 52 * 2 ^ d2 <= M2).
    { pose proof (Z.log2_spec M2 ltac:(lia)) as [Hlow _].
      rewrite <- Z.pow_add_r by lia.
      replace (52 + d2) with (Z.log2 M2) by lia. exact Hlow. }
    pose proof (rne_mono d1 _ _ Hd1 HM1) as Hr1.
    rewrite rne_exact in Hr1 by lia.
    pose proof (rne_mono d2 _ _ ltac:(lia) HM2) as Hr2.
    rewrite rne_exact in Hr2 by lia.
    assert (Hpow : 2 ^ 53 * 2 ^ d1 <= 2 ^ 52 * 2 ^ d2).
    { replace d2 with (d1 + 1 + (d2 - d1 - 1)) by lia.
      rewrite !Z.pow_add_r by lia.
      assert (0 < 2 ^ (d2 - d1 - 1)) by (apply Z.pow_pos_nonneg; lia).
      assert (0 < 2 ^ d1) by lia.
      change (2 ^ 53) with (2 ^ 52 * 2). change (2 ^ 1) with 2. nia. }
    assert (0 < 2 ^ d1) by lia. assert (0 < 2 ^ d2) by lia.
    nia.
Qed.

Lemma round53_scale nmin M k :
  0 < M -> 0 <= k -> 0 <= Spec.drop nmin M ->
  Spec.round53 (nmin + k) (M * 2 ^ k) = Spec.round53 nmin M * 2 ^ k.
Proof.
  intros HM Hk Hd.
  assert (Hdrop : Spec.drop (nmin + k) (M * 2 ^ k) = Spec.drop nmin M + k).
  { unfold Spec.drop. rewrite Z.log2_mul_pow2 by lia. lia. }
  unfold Spec.round53. rewrite Hdrop, rne_scale by lia.
  rewrite Z.pow_add_r by lia. ring.
Qed.

End Rounding.

(** ** The shift-and-round of [SpecFloat] computes [rne] *)

Section ShiftRight.

Lemma digits2_pos_log2 p : Zpos (digits2_pos p) = Z.log2 (Zpos p) + 1.
Proof.
  assert (Hsize : forall q, digits2_pos q = Pos.size q).
  { induction q as [q IH|q IH|]; cbn; rewrite ?IH; reflexivity. }
  rewrite Hsize. destruct p as [p|p|]; cbn; lia.
Qed.

Lemma Zdigits2_log2 M : 0 < M -> Zdigits2 M = Z.log2 M + 1.
Proof.
  destruct M as [|p|p]; try lia. intros _. apply digits2_pos_log2.
Qed.

Lemma shr_1_spec m r s :
  0 <= m ->
  shr_1 {| shr_m := m; shr_r := r; shr_s := s |}
  = {| shr_m := m / 2; shr_r := Z.odd m; shr_s := r || s |}.
Proof.
  intros Hm. rewrite <- Z.div2_div.
  destruct m as [|p|p]; [reflexivity| |lia].
  destruct p; reflexivity.
Qed.

Lemma iter_pos_nat {A} (f : A -> A) p x :
  iter_pos f p x = Nat.iter (Pos.to_nat p) f x.
Proof.
  revert x. induction p as [p IH|p IH|]; intros x; cbn [iter_pos].
  - rewrite !IH, Pos2Nat.inj_xI.
    replace (S (2 * Pos.to_nat p)) with (Pos.to_nat p + S (Pos.to_nat p))%nat by lia.
    rewrite Nat.iter_add, Nat.iter_succ_r. reflexivity.
  - rewrite !IH, Pos2Nat.inj_xO.
    replace (2 * Pos.to_nat p)%nat with (Pos.to_nat p + Pos.to_nat p)%nat by lia.
    rewrite Nat.iter_add. reflexivity.
  - reflexivity.
Qed.

(** After [k] one-bit shifts the record holds the quotient by [2^k] and
    the position of the remainder relative to one half. *)
Lemma shr_iter_spec M (k : nat) :
  0 <= M ->
  let mrs := Nat.iter k shr_1 {| shr_m := M; shr_r := false; shr_s := false |} in
  shr_m mrs = M / 2 ^ Z.of_nat k /\
  loc_of_shr_record mrs
  = if M mod 2 ^ Z.of_nat k =? 0 then loc_Exact
    else loc_Inexact (2 * (M mod 2 ^ Z.of_nat k) ?= 2 ^ Z.of_nat k).
Proof.
  intros HM. induction k as [|k IH].
  - cbn. rewrite Z.div_1_r, Z.mod_1_r. split; reflexivity.
  - cbv zeta in IH |- *. rewrite Nat.iter_succ.
    destruct (Nat.iter k shr_1 _) as [m r s]. cbn [shr_m] in IH.
    destruct IH as [Hm Hloc].
    assert (Hpk : 0 < 2 ^ Z.of_nat k) by lia.
    assert (Hm0 : 0 <= m) by (rewrite Hm; apply Z.div_pos; lia).
    rewrite shr_1_spec by exact Hm0. cbn [shr_m].
    rewrite Nat2Z.inj_succ, Z.pow_succ_r by lia.
    split.
    + rewrite Hm, Z.div_div by lia. f_equal. lia.
    + rewrite (Z.mul_comm 2 (2 ^ Z.of_nat k)).
      rewrite Z.rem_mul_r by lia. rewrite <- Hm.
      pose proof (Z.mod_pos_bound M (2 ^ Z.of_nat k) Hpk) as Hrk.
      set (rk := M mod 2 ^ Z.of_nat k) in *.
      assert (Hbit : m mod 2 = if Z.odd m then 1 else 0).
      { rewrite Zmod_odd. reflexivity. }
      rewrite Hbit. revert Hloc.
      destruct (Z.eqb_spec rk 0) as [Hz|Hnz]; intros Hloc.
      * assert (Hrs : r || s = false) by (destruct r, s; cbn in Hloc; try discriminate; reflexivity).
        rewrite Hrs, Hz. destruct (Z.odd m); cbn [loc_of_shr_record].
        -- destruct (Z.eqb_spec (0 + 2 ^ Z.of_nat k * 1) 0); [lia|].
           f_equal. symmetry. apply Z.compare_eq_iff. lia.
        -- destruct (Z.eqb_spec (0 + 2 ^ Z.of_nat k * 0) 0); [reflexivity|lia].
      * assert (Hrs : r || s = true) by (destruct r, s; cbn in Hloc; try discriminate; reflexivity).
        rewrite Hrs. destruct (Z.odd m); cbn [loc_of_shr_record].
        -- destruct (Z.eqb_spec (rk + 2 ^ Z.of_nat k * 1) 0); [lia|].
           f_equal. symmetry. apply Z.compare_gt_iff. lia.
        -- destruct (Z.eqb_spec (rk + 2 ^ Z.of_nat k * 0) 0); [lia|].
           f_equal. symmetry. apply Z.compare_lt_iff. lia.
Qed.

Lemma shr_rne M E n :
  0 <= M -> 0 < n ->
  exists mrs,
    shr {| shr_m := M; shr_r := false; shr_s := false |} E n = (mrs, E + n) /\
    shr_m mrs = M / 2 ^ n /\
    round_nearest_even (shr_m mrs) (loc_of_shr_record mrs) = Spec.rne M n.
Proof.
  intros HM Hn. destruct n as [|p|p]; try lia.
  unfold shr. rewrite iter_pos_nat.
  pose proof (shr_iter_spec M (Pos.to_nat p) HM) as Hspec. cbv zeta in Hspec.
  rewrite positive_nat_Z in Hspec.
  destruct Hspec as [Hm Hloc].
  eexists. split; [reflexivity|]. split; [exact Hm|].
  rewrite Hloc, Hm. unfold Spec.rne.
  assert (Hp : 0 < 2 ^ Z.pos p) by lia.
  pose proof (Z.mod_pos_bound M (2 ^ Z.pos p) Hp) as Hr.
  destruct (Z.eqb_spec (M mod 2 ^ Z.pos p) 0) as [Hz|Hnz].
  - rewrite Hz. cbn [round_nearest_even].
    destruct (Z.compare_spec (2 * 0) (2 ^ Z.pos p)); lia.
  - cbn [round_nearest_even].
    destruct (2 * (M mod 2 ^ Z.pos p) ?= 2 ^ Z.pos p); reflexivity.
Qed.

End ShiftRight.

(** ** Truncating a rounded product *)

Section RoundedProduct.

Lemma fexp_eq e : fexp Py.prec Py.emax e = Z.max (e - 53) (-1074).
Proof. reflexivity. Qed.

Lemma div_pow2_twice m a b :
  0 <= a -> 0 <= b -> m / 2 ^ a / 2 ^ b = m / 2 ^ (a + b).
Proof.
  intros Ha Hb. rewrite Z.div_div, Z.pow_add_r by lia. reflexivity.
Qed.

(** The second normalisation step of [binary_round_aux] shifts by some
    [k >= 0] and keeps the exponent non-positive when the mantissa has at
    most 54 bits and the exponent is negative. *)
Lemma second_shift m1 c :
  0 <= m1 <= 2 ^ 53 -> -1074 <= c < 0 ->
  exists mrs k,
    shr_fexp Py.prec Py.emax m1 c loc_Exact = (mrs, c + k) /\
    shr_m mrs = m1 / 2 ^ k /\ 0 <= k /\ c + k <= 0.
Proof.
  intros Hm1 Hc. unfold shr_fexp. cbn [shr_record_of_loc].
  rewrite fexp_eq.
  assert (Hdig : Zdigits2 m1 <= 54).
  { destruct (Z.eq_dec m1 0) as [->|Hnz]; [cbn; lia|].
    rewrite Zdigits2_log2 by lia.
    pose proof (Z.log2_le_mono m1 (2 ^ 53) ltac:(lia)) as Hl.
    rewrite Z.log2_pow2 in Hl by lia. lia. }
  set (n2 := Z.max (Zdigits2 m1 + c - 53) (-1074) - c).
  destruct (Z_lt_le_dec 0 n2) as [Hpos|Hnonpos].
  - destruct (shr_rne m1 c n2 ltac:(lia) Hpos) as (mrs & Hshr & Hm & _).
    exists mrs, n2. split; [exact Hshr|]. split; [exact Hm|]. lia.
  - exists {| shr_m := m1; shr_r := false; shr_s := false |}, 0.
    split; [|split; [cbn [shr_m]; rewrite Z.div_1_r; reflexivity|lia]].
    rewrite Z.add_0_r. unfold shr. destruct n2; try lia; reflexivity.
Qed.

(** [int(x)] of the float to which the exact positive value [M * 2^E] is
    rounded, when that value is below 1 ulp of exponent 0 and some bits are
    dropped: round [M] to 53 bits, then drop the fraction. *)
Lemma int_of_round_aux M E :
  0 < M ->
  let c := fexp Py.prec Py.emax (Zdigits2 M + E) in
  0 < c - E -> c < 0 ->
  Py.int_of_float (binary_round_aux Py.prec Py.emax false M E loc_Exact)
  = inr (Spec.rne M (c - E) / 2 ^ (- c)).
Proof.
  intros HM c Hshift Hneg.
  assert (Hc : c = Z.max (Z.log2 M + 1 + E - 53) (-1074)).
  { subst c. rewrite fexp_eq, Zdigits2_log2 by lia. reflexivity. }
  unfold binary_round_aux.
  replace (shr_fexp Py.prec Py.emax M E loc_Exact)
    with (shr {| shr_m := M; shr_r := false; shr_s := false |} E (c - E))
    by reflexivity.
  destruct (shr_rne M E (c - E) ltac:(lia) Hshift) as (mrs1 & Hshr1 & Hm1 & Hrne1).
  rewrite Hshr1, Hrne1.
  replace (E + (c - E)) with c by lia.
  set (m1 := Spec.rne M (c - E)).
  assert (Hm1b : 0 <= m1 <= 2 ^ 53).
  { split; [apply rne_nonneg; lia|].
    pose proof (rne_bounds M (c - E) ltac:(lia)) as [_ Hup]. fold m1 in Hup.
    assert (M / 2 ^ (c - E) < 2 ^ 53); [|lia].
    apply Z.div_lt_upper_bound; [lia|].
    rewrite <- Z.pow_add_r by lia.
    pose proof (Z.log2_spec M HM) as [_ Hlt].
    eapply Z.lt_le_trans; [exact Hlt|].
    apply Z.pow_le_mono_r; lia. }
  destruct (second_shift m1 c Hm1b ltac:(lia)) as (mrs2 & k & Hshr2 & Hm2 & Hk & Hck).
  rewrite Hshr2.
  assert (Hq : shr_m mrs2 / 2 ^ (- (c + k)) = m1 / 2 ^ (- c)).
  { rewrite Hm2, div_pow2_twice by lia. f_equal. f_equal. lia. }
  assert (Hq0 : 0 <= shr_m mrs2).
  { rewrite Hm2. apply Z.div_pos; lia. }
  destruct (shr_m mrs2) as [|q|q] eqn:Hsm; [| |lia].
  - cbn [Py.int_of_float]. rewrite <- Hq. rewrite Z.div_0_l by lia. reflexivity.
  - destruct (Z.leb_spec (c + k) (Py.emax - Py.prec)) as [_|Hbad];
      [|unfold Py.emax, Py.prec in Hbad; lia].
    cbn [Py.int_of_float cond_Zopp].
    rewrite Z.shiftl_div_pow2 by lia. rewrite Hq. reflexivity.
Qed.

(** The same through [round53]. *)
Lemma int_of_round_aux_round53 M E :
  0 < M ->
  let c := fexp Py.prec Py.emax (Zdigits2 M + E) in
  0 < c - E -> c < 0 ->
  Py.int_of_float (binary_round_aux Py.prec Py.emax false M E loc_Exact)
  = inr (Spec.round53 (-1074 - E) M / 2 ^ (- E)).
Proof.
  intros HM c Hshift Hneg.
  rewrite (int_of_round_aux M E HM Hshift Hneg). fold c.
  assert (Hc : c - E = Spec.drop (-1074 - E) M).
  { subst c. rewrite fexp_eq, Zdigits2_log2 by lia. unfold Spec.drop. lia. }
  unfold Spec.round53. rewrite <- Hc.
  replace (- E) with (- c + (c - E)) by lia.
  rewrite Z.pow_add_r by lia.
  rewrite Z.div_mul_cancel_r by lia. reflexivity.
Qed.

End RoundedProduct.

(* ================================================================== *)
(** * Progress marker of the preview strip *)

Section Progress.

(** [float(400)] *)
Lemma float_of_int_400 :
  Py.float_of_int 400 = inr (S754_finite false 7036874417766400 (-44)).
Proof. vm_compute. reflexivity. Qed.

Lemma mul_400 p :
  Py.mul_int_float 400 p
  = inr (Py.fmul (S754_finite false 7036874417766400 (-44)) p).
Proof. unfold Py.mul_int_float. rewrite float_of_int_400. reflexivity. Qed.

(** Shape of a well-formed finite double. *)
Lemma valid_finite s m e :
  valid_binary Py.prec Py.emax (S754_finite s m e) = true ->
  -1074 <= e /\
  Z.log2 (Zpos m) <= 52 /\
  (-1074 < e -> Z.log2 (Zpos m) = 52).
Proof.
  cbn [valid_binary]. unfold bounded, canonical_mantissa.
  intros H. apply andb_prop in H. destruct H as [Hcanon _].
  apply Z.eqb_eq in Hcanon. rewrite fexp_eq, digits2_pos_log2 in Hcanon. lia.
Qed.

Lemma le_one m e :
  SFleb (S754_finite false m e) Py.f_1 = true ->
  e < -52 \/ (e = -52 /\ Zpos m <= 2 ^ 52).
Proof.
  unfold SFleb, Py.f_1. cbn [SFcompare].
  destruct (Z.compare_spec e (-52)) as [Heq|Hlt|Hgt]; try discriminate; [|lia].
  intros H. right. split; [exact Heq|].
  rewrite Pos.compare_cont_spec in H. cbn [Pos.switch_Eq] in H.
  assert (Hm : (m <= 4503599627370496)%positive).
  { unfold Pos.le. destruct (m ?= 4503599627370496)%positive; discriminate. }
  apply Pos2Z.pos_le_pos in Hm. exact Hm.
Qed.

Lemma le_finite m1 e1 m2 e2 :
  SFleb (S754_finite false m1 e1) (S754_finite false m2 e2) = true ->
  e1 < e2 \/ (e1 = e2 /\ Zpos m1 <= Zpos m2).
Proof.
  unfold SFleb. cbn [SFcompare].
  destruct (Z.compare_spec e1 e2) as [Heq|Hlt|Hgt]; try discriminate; [|lia].
  intros H. right. split; [exact Heq|].
  rewrite Pos.compare_cont_spec in H. cbn [Pos.switch_Eq] in H.
  apply Pos2Z.pos_le_pos. unfold Pos.le.
  destruct (m1 ?= m2)%positive; discriminate.
Qed.

(** Bit length of the exact product mantissa [400.0 * m]. *)
Lemma log2_product m :
  0 < m ->
  52 + Z.log2 m <= Z.log2 (7036874417766400 * m) <= 53 + Z.log2 m.
Proof.
  intros Hm. pose proof (Z.log2_spec m Hm) as [Hlo Hhi].
  pose proof (Z.log2_nonneg m) as Hnn.
  split.
  - apply Z.log2_le_pow2; [lia|].
    rewrite Z.pow_add_r by lia.
    change (2 ^ 52) with 4503599627370496. nia.
  - apply Z.lt_succ_r. apply Z.log2_lt_pow2; [lia|].
    replace (Z.succ (53 + Z.log2 m)) with (53 + Z.succ (Z.log2 m)) by lia.
    rewrite Z.pow_add_r by lia.
    change (2 ^ 53) with 9007199254740992. nia.
Qed.

(** [int(400 * p)] for a positive double [p <= 1]. *)
Lemma int_of_400_times m e :
  valid_binary Py.prec Py.emax (S754_finite false m e) = true ->
  SFleb (S754_finite false m e) Py.f_1 = true ->
  Py.int_of_float (Py.fmul (S754_finite false 7036874417766400 (-44))
                           (S754_finite false m e))
  = inr (Spec.round53 (-1030 - e) (7036874417766400 * Zpos m) / 2 ^ (44 - e)).
Proof.
  intros Hvalid Hle.
  destruct (valid_finite _ _ _ Hvalid) as (He & Hlog & Hnormal).
  pose proof (le_one _ _ Hle) as Hone.
  pose proof (log2_product (Zpos m) ltac:(lia)) as [Hplo Hphi].
  pose proof (Z.log2_nonneg (Zpos m)) as Hnn.
  unfold Py.fmul. cbn [SFmul xorb].
  change (Z.pos (7036874417766400 * m)) with (7036874417766400 * Zpos m).
  set (M := 7036874417766400 * Zpos m) in *.
  assert (HM : 0 < M) by (subst M; lia).
  assert (Hc : fexp Py.prec Py.emax (Zdigits2 M + (-44 + e))
               = Z.max (Z.log2 M + 1 + (-44 + e) - 53) (-1074)).
  { rewrite fexp_eq, Zdigits2_log2 by lia. reflexivity. }
  rewrite (int_of_round_aux_round53 M (-44 + e) HM).
  - f_equal. f_equal; [f_equal; lia|f_equal; lia].
  - rewrite Hc. destruct (Z.eq_dec e (-1074)); [lia|].
    assert (Z.log2 (Zpos m) = 52) by (apply Hnormal; lia). lia.
  - rewrite Hc. lia.
Qed.

Lemma round53_nonneg nmin M : 0 < M -> 0 <= Spec.drop nmin M -> 0 <= Spec.round53 nmin M.
Proof.
  intros HM Hd. unfold Spec.round53.
  apply Z.mul_nonneg_nonneg; [apply rne_nonneg; lia|lia].
Qed.

Lemma drop_product nmin m :
  0 < m -> 0 <= Spec.drop nmin (7036874417766400 * m).
Proof.
  intros Hm. pose proof (log2_product m Hm). pose proof (Z.log2_nonneg m).
  unfold Spec.drop. lia.
Qed.

(** [int(400 * p)] does not decrease when [p] grows. *)
Lemma int_of_400_times_mono m1 e1 m2 e2 :
  valid_binary Py.prec Py.emax (S754_finite false m1 e1) = true ->
  valid_binary Py.prec Py.emax (S754_finite false m2 e2) = true ->
  SFleb (S754_finite false m2 e2) Py.f_1 = true ->
  SFleb (S754_finite false m1 e1) (S754_finite false m2 e2) = true ->
  Spec.round53 (-1030 - e1) (7036874417766400 * Zpos m1) / 2 ^ (44 - e1)
  <= Spec.round53 (-1030 - e2) (7036874417766400 * Zpos m2) / 2 ^ (44 - e2).
Proof.
  intros Hv1 Hv2 Hone2 Hle.
  pose proof (le_one _ _ Hone2) as He2max.
  destruct (valid_finite _ _ _ Hv1) as (He1 & Hlog1 & Hnormal1).
  destruct (valid_finite _ _ _ Hv2) as (He2 & Hlog2 & Hnormal2).
  pose proof (le_finite _ _ _ _ Hle) as Horder.
  set (k := e2 - e1).
  assert (Hk : 0 <= k) by (subst k; lia).
  assert (Hvalue : Zpos m1 <= Zpos m2 * 2 ^ k).
  { destruct Horder as [Hlt|[Heq Hm]].
    - assert (Hl2 : Z.log2 (Zpos m2) = 52) by (apply Hnormal2; lia).
      pose proof (Z.log2_spec (Zpos m2) ltac:(lia)) as [Hlo2 _]. rewrite Hl2 in Hlo2.
      pose proof (Z.log2_spec (Zpos m1) ltac:(lia)) as [_ Hhi1].
      assert (Hhi : Zpos m1 < 2 ^ 53).
      { eapply Z.lt_le_trans; [exact Hhi1|]. apply Z.pow_le_mono_r; lia. }
      assert (Hpk : 2 ^ 1 <= 2 ^ k) by (apply Z.pow_le_mono_r; subst k; lia).
      change (2 ^ 1) with 2 in Hpk. change (2 ^ 53) with (2 * 2 ^ 52) in Hhi.
      nia.
    - replace k with 0 by (subst k; lia). rewrite Z.mul_1_r. exact Hm. }
  replace (44 - e1) with (44 - e2 + k) by (subst k; lia).
  rewrite Z.pow_add_r by lia.
  rewrite <- (Z.div_mul_cancel_r
                (Spec.round53 (-1030 - e2) (7036874417766400 * Zpos m2))
                (2 ^ (44 - e2)) (2 ^ k)) by lia.
  rewrite <- round53_scale by (try apply drop_product; lia).
  replace (-1030 - e2 + k) with (-1030 - e1) by (subst k; lia).
  apply Z.div_le_mono; [lia|].
  apply round53_mono; [lia| |apply drop_product; lia].
  rewrite <- Z.mul_assoc. apply Z.mul_le_mono_nonneg_l; lia.
Qed.

End Progress.

Section SetProgress.
Import PreviewWaveformWidget.

Lemma setProgress_eq w p n :
  Py.int_of_float (Py.fmul (S754_finite false 7036874417766400 (-44)) p) = inr n ->
  setProgress p w
  = (Return tt,
     if n =? position w then w
     else {| data := data w; position := n;
             update_requests := S (update_requests w) |}).
Proof.
  intros Hn. unfold setProgress, update. unfold_eff.
  rewrite mul_400. unfold_eff. rewrite Hn. unfold_eff.
  destruct (n =? position w); reflexivity.
Qed.

Lemma unit_interval_cases p :
  Py.in_unit_interval p = true ->
  (exists s, p = S754_zero s) \/
  (exists m e, p = S754_finite false m e /\
               valid_binary Py.prec Py.emax p = true /\
               SFleb p Py.f_1 = true).
Proof.
  unfold Py.in_unit_interval. intros H.
  apply andb_prop in H. destruct H as [H Hle1].
  apply andb_prop in H. destruct H as [Hvalid Hle0].
  destruct p as [s|s| |s m e].
  - left. eauto.
  - destruct s; discriminate.
  - discriminate.
  - destruct s; [discriminate|]. right. eauto.
Qed.

(** [int(400 * p)] is defined and lies in [0, 400] on the unit interval,
    and is monotone there. *)
Lemma progress_int p :
  Py.in_unit_interval p = true ->
  exists n,
    Py.int_of_float (Py.fmul (S754_finite false 7036874417766400 (-44)) p) = inr n /\
    0 <= n.
Proof.
  intros Hp. destruct (unit_interval_cases p Hp) as [[s ->]|(m & e & -> & Hv & Hle)].
  - exists 0. split; [reflexivity|lia].
  - eexists. split; [apply int_of_400_times; assumption|].
    apply Z_div_nonneg_nonneg; [|apply Z.pow_nonneg; lia].
    apply round53_nonneg; [lia|apply drop_product; lia].
Qed.

Lemma progress_mono p1 p2 n1 n2 :
  Py.in_unit_interval p1 = true ->
  Py.in_unit_interval p2 = true ->
  SFleb p1 p2 = true ->
  Py.int_of_float (Py.fmul (S754_finite false 7036874417766400 (-44)) p1) = inr n1 ->
  Py.int_of_float (Py.fmul (S754_finite false 7036874417766400 (-44)) p2) = inr n2 ->
  n1 <= n2.
Proof.
  intros H1 H2 Hle Hn1 Hn2.
  destruct (progress_int p2 H2) as (n2' & Hn2' & Hpos2).
  rewrite Hn2 in Hn2'. injection Hn2' as <-.
  destruct (unit_interval_cases p1 H1) as [[s1 ->]|(m1 & e1 & -> & Hv1 & Hle1)].
  - cbn in Hn1. injection Hn1 as <-. exact Hpos2.
  - destruct (unit_interval_cases p2 H2) as [[s2 ->]|(m2 & e2 & -> & Hv2 & Hle2)].
    + discriminate.
    + rewrite int_of_400_times in Hn1, Hn2 by assumption.
      injection Hn1 as <-. injection Hn2 as <-.
      apply int_of_400_times_mono; assumption.
Qed.

Lemma one_in_unit_interval : Py.in_unit_interval Py.f_1 = true.
Proof. reflexivity. Qed.

Lemma progress_at_one :
  Py.int_of_float (Py.fmul (S754_finite false 7036874417766400 (-44)) Py.f_1) = inr 400.
Proof. vm_compute. reflexivity. Qed.

Lemma le_one_of_unit p : Py.in_unit_interval p = true -> SFleb p Py.f_1 = true.
Proof.
  unfold Py.in_unit_interval. intros H.
  apply andb_prop in H. destruct H as [_ H]. exact H.
Qed.

Lemma repeat_setProgress_fixed k p w n :
  Py.int_of_float (Py.fmul (S754_finite false 7036874417766400 (-44)) p) = inr n ->
  position w = n ->
  Spec.repeat_setProgress k p w = w.
Proof.
  intros Hn Hpos. induction k as [|k IH]; [reflexivity|].
  cbn [Spec.repeat_setProgress]. rewrite (setProgress_eq w p n Hn).
  rewrite <- Hpos, Z.eqb_refl. exact IH.
Qed.

End SetProgress.

(** C7, as amended.  For every progress value [p] in [0,1],
    [setProgress(p)] returns and leaves the cached marker at
    [int(400 * p)], the float product truncated toward zero, which lies in
    [0, 400].  The call requests at most one redraw, and any number of
    further calls with the same [p] change nothing (no further redraw).  A
    following call with a value [p' >= p] of [0,1] never moves the marker to
    the left. *)
Theorem setProgress_places_marker :
  forall (w : PreviewWaveformWidget.t) (p : Py.float),
    Py.in_unit_interval p = true ->
    let r := PreviewWaveformWidget.setProgress p w in
    exists prod n,
      Py.mul_int_float 400 p = inr prod /\
      Py.int_of_float prod = inr n /\
      0 <= n <= 400 /\
      returns r /\
      PreviewWaveformWidget.position (state_of r) = n /\
      (PreviewWaveformWidget.update_requests (state_of r)
       <= S (PreviewWaveformWidget.update_requests w))%nat /\
      (forall k, Spec.repeat_setProgress k p (state_of r) = state_of r) /\
      (forall p',
          Py.in_unit_interval p' = true ->
          SFleb p p' = true ->
          let r' := PreviewWaveformWidget.setProgress p' (state_of r) in
          returns r' /\
          PreviewWaveformWidget.position (state_of r)
          <= PreviewWaveformWidget.position (state_of r')).
Proof.
  intros w p Hp r.
  destruct (progress_int p Hp) as (n & Hn & Hn0).
  exists (Py.fmul (S754_finite false 7036874417766400 (-44)) p), n.
  assert (Hupper : n <= 400).
  { apply (progress_mono p Py.f_1 n 400 Hp one_in_unit_interval
             (le_one_of_unit p Hp) Hn progress_at_one). }
  assert (Hpos : PreviewWaveformWidget.position (state_of r) = n).
  { subst r. rewrite (setProgress_eq w p n Hn). cbn [state_of snd].
    destruct (Z.eqb_spec n (PreviewWaveformWidget.position w)) as [->|_]; reflexivity. }
  split; [apply mul_400|]. split; [exact Hn|]. split; [lia|].
  split; [subst r; rewrite (setProgress_eq w p n Hn); eexists; reflexivity|].
  split; [exact Hpos|]. split; [|split].
  - subst r. rewrite (setProgress_eq w p n Hn). cbn [state_of snd].
    destruct (n =? PreviewWaveformWidget.position w); cbn; lia.
  - intros k. apply (repeat_setProgress_fixed k p _ n Hn Hpos).
  - intros p' Hp' Hle r'.
    destruct (progress_int p' Hp') as (n' & Hn' & _).
    pose proof (progress_mono p p' n n' Hp Hp' Hle Hn Hn') as Hmono.
    subst r'. rewrite (setProgress_eq _ p' n' Hn').
    split; [eexists; reflexivity|].
    destruct (Z.eqb_spec n' (PreviewWaveformWidget.position (state_of r))) as [He|_].
    + change (state_of (Return tt, state_of r)) with (state_of r). lia.
    + unfold state_of at 2. cbn [snd PreviewWaveformWidget.position]. lia.
Qed.

Lemma setProgress_places_marker_witness :
  let w := PreviewWaveformWidget.__init__ in
  let p := S754_finite false 4503599627370496 (-54) in
  Py.in_unit_interval p = true /\
  exists prod n,
    Py.mul_int_float 400 p = inr prod /\
    Py.int_of_float prod = inr n /\
    PreviewWaveformWidget.position
      (state_of (PreviewWaveformWidget.setProgress p w)) = n.
Proof.
  intros w p. split; [reflexivity|].
  destruct (setProgress_places_marker w p eq_refl)
    as (prod & n & Hprod & Hn & _ & _ & Hpos & _).
  exists prod, n. auto.
Defined.

(** C7, as stated, fails: for [p = 2**-9], [400 * p = 0.78125]; the marker
    is placed at 0, while rounding would place it at 1. *)
Lemma setProgress_counterexample :
  let p := S754_finite false 4503599627370496 (-61) in
  let r := PreviewWaveformWidget.setProgress p PreviewWaveformWidget.__init__ in
  Py.in_unit_interval p = true /\
  returns r /\
  PreviewWaveformWidget.position (state_of r) = 0 /\
  exists prod,
    Py.mul_int_float 400 p = inr prod /\
    Py.round_half_even prod = inr 1.
Proof.
  cbv zeta. split; [reflexivity|].
  split; [eexists; vm_compute; reflexivity|].
  split; [vm_compute; reflexivity|].
  eexists. split; vm_compute; reflexivity.
Qed.

(* ================================================================== *)
(** * Further properties of [WaveformWidget] *)

Section WaveformMore.
Import WaveformWidget.

Lemma setPositionMarkerOffset_scroll rel w :
  let w' := state_of (setPositionMarkerOffset rel w) in
  offset w' = offset w /\ update_requests w' = update_requests w.
Proof.
  unfold setPositionMarkerOffset. unfold_eff. simpl_fields.
  destruct (Py.mul_float_int rel (frames w)) as [e|prod]; [split; reflexivity|].
  cbv beta iota. destruct (Py.int_of_float prod); split; reflexivity.
Qed.

Lemma setFrameCount_scroll n w :
  let w' := state_of (setFrameCount n w) in
  offset w' = offset w /\ update_requests w' = update_requests w.
Proof.
  rewrite setFrameCount_eq.
  exact (setPositionMarkerOffset_scroll (position_marker w) (set_frames n w)).
Qed.

Lemma setData_state data w :
  state_of (setData data w)
  = set_log (log w ++ [LogInfo "rendering waveform"; LogInfo "rendering waveform done"])
      (set_pixmap
         (Some {| Qt.pm_width := position_marker_offset w + Py.len (skipn 20 data);
                  Qt.pm_height := waveform_height w;
                  Qt.pm_ops :=
                    render_ops (set_waveform_data (Some (skipn 20 data)) (set_pixmap None w))
                               (skipn 20 data)
                               (position_marker_offset w + Py.len (skipn 20 data)) |})
         (set_waveform_data (Some (skipn 20 data)) (set_pixmap None w))).
Proof.
  rewrite setData_eq, (renderWaveformPixmap_eq _ (skipn 20 data)) by reflexivity.
  reflexivity.
Qed.


Section Parser.
Variable Beatgrid_parse : list byte -> Py.construct_error + Beatgrid.

Lemma reachable_scroll w :
  Spec.reachable Beatgrid_parse w ->
  offset w = 5 * Z.of_nat (update_requests w).
Proof.
  induction 1 as [|w c Hw IH].
  - reflexivity.
  - destruct c as [data|buf|n|rel|]; cbn [Spec.run_call].
    + rewrite setData_state. simpl_fields. exact IH.
    + rewrite setBeatgridData_eq. cbv zeta.
      destruct (truthy_bytes (waveform_data w)) eqn:Ht.
      * destruct (truthy_bytes_some _ Ht) as (b & l & Hd).
        erewrite renderWaveformPixmap_eq
          by (destruct (Beatgrid_parse buf); exact Hd).
        destruct (Beatgrid_parse buf); simpl_fields; exact IH.
      * destruct (Beatgrid_parse buf); simpl_fields; exact IH.
    + destruct (setFrameCount_scroll n w) as [Ho Hu]. rewrite Ho, Hu. exact IH.
    + destruct (setPositionMarkerOffset_scroll rel w) as [Ho Hu]. rewrite Ho, Hu. exact IH.
    + rewrite timerEvent_eq. simpl_fields. lia.
Qed.

End Parser.

Lemma ticks_state k w :
  View.ticks k w
  = set_update_requests (k + update_requests w)%nat
      (set_offset (offset w + 5 * Z.of_nat k) w).
Proof.
  revert w. induction k as [|k IH]; intros w.
  - cbn [View.ticks]. destruct w. unfold set_update_requests, set_offset.
    cbn. f_equal. lia.
  - cbn [View.ticks]. rewrite IH, timerEvent_eq. simpl_fields.
    unfold set_update_requests, set_offset. simpl_fields. f_equal; lia.
Qed.

End WaveformMore.


(** X2.  Scrolling is a pure count of timer ticks: in every state a widget
    can reach, [offset] is 5 times the number of redraws requested so far
    (so it is never negative and never reset); neither new samples nor a new
    beat grid touch it, and [k] ticks add exactly [5 * k] whatever the length
    of the composited image: the offset is never clamped. *)
Theorem offset_counts_ticks :
  forall (Beatgrid_parse : list byte -> Py.construct_error + WaveformWidget.Beatgrid)
         (w : WaveformWidget.t),
    Spec.reachable Beatgrid_parse w ->
    WaveformWidget.offset w = 5 * Z.of_nat (WaveformWidget.update_requests w) /\
    0 <= WaveformWidget.offset w /\
    (forall data,
        WaveformWidget.offset (state_of (WaveformWidget.setData data w))
        = WaveformWidget.offset w) /\
    (forall buf,
        WaveformWidget.offset (state_of (WaveformWidget.setBeatgridData Beatgrid_parse buf w))
        = WaveformWidget.offset w) /\
    (forall k,
        WaveformWidget.offset (View.ticks k w) = WaveformWidget.offset w + 5 * Z.of_nat k /\
        WaveformWidget.pixmap (View.ticks k w) = WaveformWidget.pixmap w).
Proof.
  intros parse w Hw.
  pose proof (reachable_scroll parse w Hw) as Hoff.
  split; [exact Hoff|]. split; [lia|]. split; [|split].
  - intros data.
    pose proof (reachable_scroll parse _
                  (Spec.reach_call parse w (Spec.SetData data) Hw)) as H1.
    cbn [Spec.run_call] in H1. rewrite setData_state in *. simpl_fields. reflexivity.
  - intros buf. rewrite setBeatgridData_eq. cbv zeta.
    destruct (WaveformWidget.truthy_bytes (WaveformWidget.waveform_data w)) eqn:Ht.
    + destruct (truthy_bytes_some _ Ht) as (b & l & Hd).
      erewrite renderWaveformPixmap_eq by (destruct (parse buf); exact Hd).
      destruct (parse buf); reflexivity.
    + destruct (parse buf); reflexivity.
  - intros k. rewrite ticks_state. split; reflexivity.
Qed.

Lemma offset_counts_ticks_witness :
  let parse := fun _ : list byte => @inl _ WaveformWidget.Beatgrid Py.RangeError in
  let w := state_of (WaveformWidget.timerEvent
                       (state_of (WaveformWidget.setData [x01] WaveformWidget.new))) in
  WaveformWidget.offset w = 5 * Z.of_nat (WaveformWidget.update_requests w) /\
  WaveformWidget.offset w = 5.
Proof.
  intros parse w.
  assert (Hw : Spec.reachable parse w).
  { apply (Spec.reach_call parse _ Spec.TimerEvent).
    apply (Spec.reach_call parse _ (Spec.SetData [x01])).
    apply Spec.reach_new. }
  split.
  - exact (proj1 (offset_counts_ticks parse w Hw)).
  - reflexivity.
Defined.

Section ImageInvariant.
Import WaveformWidget.
Variable Beatgrid_parse : list byte -> Py.construct_error + Beatgrid.



End ImageInvariant.



Lemma range_in lo hi i : In i (Py.range lo hi) -> lo <= i < hi.
Proof.
  unfold Py.range. intros H. apply in_map_iff in H.
  destruct H as (k & <- & Hk). apply in_seq in Hk. lia.
Qed.



(** X5.  [setPositionMarkerOffset] is not exception safe: it can only fail
    with [ValueError] or [OverflowError], and when it fails the new relative
    position is already stored while the offset still has its old value.
    With NaN (and a frame count that converts to a float) it fails with
    [ValueError]. *)
Theorem setPositionMarkerOffset_failure :
  forall (w : WaveformWidget.t) (rel : Py.float),
    let r := WaveformWidget.setPositionMarkerOffset rel w in
    (returns r \/ fst r = Raise Py.ValueError \/ fst r = Raise Py.OverflowError) /\
    (~ returns r ->
     state_of r = WaveformWidget.set_position_marker rel w /\
     WaveformWidget.position_marker (state_of r) = rel /\
     WaveformWidget.position_marker_offset (state_of r)
     = WaveformWidget.position_marker_offset w) /\
    (rel = S754_nan ->
     (exists f, Py.float_of_int (WaveformWidget.frames w) = inr f) ->
     fst r = Raise Py.ValueError).
Proof.
  intros w rel r. subst r.
  unfold WaveformWidget.setPositionMarkerOffset. unfold_eff. simpl_fields.
  unfold Py.mul_float_int.
  destruct (Py.float_of_int (WaveformWidget.frames w)) as [e|f] eqn:Hf.
  - assert (He : e = Py.OverflowError).
    { unfold Py.float_of_int in Hf.
      destruct (binary_normalize _ _ _ _ _); congruence. }
    subst e. cbn [fst snd].
    split; [auto|]. split; [intros _; repeat split|].
    intros _ (f & Hf'). discriminate.
  - cbv beta iota.
    destruct (Py.int_of_float (Py.fmul rel f)) as [e|n] eqn:Hn; cbn [fst snd].
    + assert (He : e = Py.ValueError \/ e = Py.OverflowError).
      { unfold Py.int_of_float in Hn.
        destruct (Py.fmul rel f); try discriminate; injection Hn as <-; auto. }
      split; [destruct He as [->| ->]; auto|].
      split; [intros _; repeat split|].
      intros -> _. unfold Py.fmul in Hn. cbn in Hn. congruence.
    + split; [left; eexists; reflexivity|].
      split; [intros H; exfalso; apply H; eexists; reflexivity|].
      intros -> _. unfold Py.fmul in Hn. cbn in Hn. discriminate.
Qed.


(* ================================================================== *)
(** * Further properties of [PreviewWaveformWidget] *)

Section PreviewMore.
Import PreviewWaveformWidget.

Lemma preview_setData_state d w :
  state_of (setData d w)
  = {| data := Some d; position := position w;
       update_requests := S (update_requests w) |}.
Proof. reflexivity. Qed.

Lemma enough_data_true d : 800 <= Py.len d -> enough_data (Some d) = true.
Proof.
  intros Hge. destruct d as [|b d]; [unfold Py.len in Hge; cbn in Hge; lia|].
  unfold enough_data. apply Z.leb_le. exact Hge.
Qed.

Lemma preview_strokes w d :
  data w = Some d -> 800 <= Py.len d ->
  Qt.strokes (Qt.pm_ops (drawPreviewWaveformPixmap w))
  = map (Spec.preview_stroke d) (Py.range 0 400) ++ [Spec.baseline].
Proof.
  intros Hd Hge. unfold drawPreviewWaveformPixmap. cbn [Qt.pm_ops].
  rewrite Hd, (enough_data_true d Hge).
  unfold Qt.strokes. cbn [app Qt.strokes_from]. apply strokes_preview_bars.
Qed.

Lemma flat_map_ext_range {A} (f g : Z -> list A) lo hi :
  (forall x, lo <= x < hi -> f x = g x) ->
  flat_map f (Py.range lo hi) = flat_map g (Py.range lo hi).
Proof.
  intros H.
  assert (Hin : forall x, In x (Py.range lo hi) -> f x = g x)
    by (intros x Hx; apply H, range_in, Hx).
  induction (Py.range lo hi) as [|x l IH]; [reflexivity|].
  cbn [flat_map]. rewrite (Hin x) by (left; reflexivity).
  rewrite IH by (intros y Hy; apply Hin; right; exact Hy). reflexivity.
Qed.

Lemma getitem_firstn n d i :
  0 <= i < Z.of_nat n -> Py.getitem (firstn n d) i = Py.getitem d i.
Proof.
  intros Hi. unfold Py.getitem. rewrite nth_firstn.
  destruct (Nat.ltb_spec (Z.to_nat i) n); [reflexivity|lia].
Qed.

End PreviewMore.

(** X7.  The preview compositor does not clamp its input.  For a buffer of
    at least 800 bytes, bar [x] is the vertical line at column [x] (inside
    the 400 columns) from row 31; its upper end [31 - data[2x]] is inside the
    image exactly when [data[2x] <= 31], and its pen colour
    [QColor(36*(data[2x+1]+1), ..., 255)] has valid channels exactly when
    [data[2x+1] <= 6]. *)
Theorem preview_bar_bounds :
  forall (w : PreviewWaveformWidget.t) (d : list byte) (x : nat),
    800 <= Py.len d ->
    (x < 400)%nat ->
    let pm := PreviewWaveformWidget.drawPreviewWaveformPixmap
                (state_of (PreviewWaveformWidget.setData d w)) in
    exists s,
      nth_error (Qt.strokes (Qt.pm_ops pm)) x = Some s /\
      Qt.st_x1 s = Z.of_nat x /\ Qt.st_x2 s = Z.of_nat x /\
      0 <= Qt.st_x1 s < Qt.pm_width pm /\
      Qt.st_y1 s = 31 /\
      Qt.st_y2 s <= 31 /\
      (0 <= Qt.st_y2 s <-> Py.getitem d (2 * Z.of_nat x) <= 31) /\
      exists c, Qt.st_pen s = Some c /\
                (View.valid_color c <-> Py.getitem d (2 * Z.of_nat x + 1) <= 6).
Proof.
  intros w d x Hge Hx pm. subst pm.
  rewrite (preview_strokes _ d) by (try reflexivity; exact Hge).
  rewrite nth_error_app1 by (rewrite length_map, range_length; exact Hx).
  rewrite nth_error_map, range_nth_error by exact Hx.
  cbn [option_map]. eexists. split; [reflexivity|].
  rewrite Z.add_0_l. unfold Spec.preview_stroke.
  cbn [Qt.st_x1 Qt.st_x2 Qt.st_y1 Qt.st_y2 Qt.st_pen
       Qt.pm_width PreviewWaveformWidget.drawPreviewWaveformPixmap].
  pose proof (byte_val_range (nth (Z.to_nat (2 * Z.of_nat x)) d x00)) as H0.
  pose proof (byte_val_range (nth (Z.to_nat (2 * Z.of_nat x + 1)) d x00)) as H1.
  unfold Py.getitem.
  repeat split; try lia.
  eexists. split; [reflexivity|]. cbn [View.valid_color]. lia.
Qed.

Lemma preview_bar_bounds_witness :
  exists s,
    nth_error
      (Qt.strokes
         (Qt.pm_ops
            (PreviewWaveformWidget.drawPreviewWaveformPixmap
               (state_of (PreviewWaveformWidget.setData (repeat x28 800)
                            PreviewWaveformWidget.__init__))))) 3 = Some s /\
    Qt.st_y2 s = -9.
Proof.
  destruct (preview_bar_bounds PreviewWaveformWidget.__init__ (repeat x28 800) 3)
    as (s & Hs & _).
  - vm_compute. discriminate.
  - lia.
  - exists s. split; [exact Hs|].
    vm_compute in Hs. injection Hs as <-. reflexivity.
Defined.

(** X8.  Only the first 800 bytes of a preview buffer are ever read: two
    buffers of at least 800 bytes that agree on their first 800 bytes give
    the same preview image, whatever state the widget was in. *)
Theorem preview_reads_first_800_bytes :
  forall (w1 w2 : PreviewWaveformWidget.t) (d1 d2 : list byte),
    800 <= Py.len d1 -> 800 <= Py.len d2 ->
    firstn 800 d1 = firstn 800 d2 ->
    PreviewWaveformWidget.drawPreviewWaveformPixmap
      (state_of (PreviewWaveformWidget.setData d1 w1))
    = PreviewWaveformWidget.drawPreviewWaveformPixmap
        (state_of (PreviewWaveformWidget.setData d2 w2)).
Proof.
  intros w1 w2 d1 d2 H1 H2 Heq.
  unfold PreviewWaveformWidget.drawPreviewWaveformPixmap.
  rewrite !preview_setData_state. cbn [PreviewWaveformWidget.data].
  rewrite (enough_data_true d1 H1), (enough_data_true d2 H2).
  f_equal. f_equal. f_equal.
  apply flat_map_ext_range. intros x Hx.
  unfold PreviewWaveformWidget.draw_preview_sample.
  rewrite <- (getitem_firstn 800 d1 (2 * x)), <- (getitem_firstn 800 d1 (2 * x + 1)) by lia.
  rewrite <- (getitem_firstn 800 d2 (2 * x)), <- (getitem_firstn 800 d2 (2 * x + 1)) by lia.
  rewrite Heq. reflexivity.
Qed.

Lemma preview_reads_first_800_bytes_witness :
  PreviewWaveformWidget.drawPreviewWaveformPixmap
    (state_of (PreviewWaveformWidget.setData (repeat x03 800 ++ [xff])
                 PreviewWaveformWidget.__init__))
  = PreviewWaveformWidget.drawPreviewWaveformPixmap
      (state_of (PreviewWaveformWidget.setData (repeat x03 800 ++ [x00; x01])
                   PreviewWaveformWidget.__init__)).
Proof.
  apply preview_reads_first_800_bytes.
  - vm_compute. discriminate.
  - vm_compute. discriminate.
  - vm_compute. reflexivity.
Defined.

(** X9.  The cached progress position is never painted: whatever value
    [setProgress] receives, and whether it returns or raises, the preview
    image and what [paintEvent] shows are the same as before the call. *)
Theorem progress_marker_is_not_painted :
  forall (w : PreviewWaveformWidget.t) (p : Py.float),
    let w' := state_of (PreviewWaveformWidget.setProgress p w) in
    PreviewWaveformWidget.data w' = PreviewWaveformWidget.data w /\
    PreviewWaveformWidget.drawPreviewWaveformPixmap w'
    = PreviewWaveformWidget.drawPreviewWaveformPixmap w /\
    PreviewWaveformWidget.paintEvent w' = PreviewWaveformWidget.paintEvent w.
Proof.
  intros w p w'.
  assert (Hd : PreviewWaveformWidget.data w' = PreviewWaveformWidget.data w).
  { subst w'. unfold PreviewWaveformWidget.setProgress, PreviewWaveformWidget.update.
    unfold_eff.
    destruct (Py.mul_int_float 400 p) as [e|prod]; [reflexivity|].
    cbv beta iota. destruct (Py.int_of_float prod) as [e|n]; [reflexivity|].
    cbv beta iota.
    destruct (negb (n =? PreviewWaveformWidget.position w)); reflexivity. }
  assert (Hpm : PreviewWaveformWidget.drawPreviewWaveformPixmap w'
                = PreviewWaveformWidget.drawPreviewWaveformPixmap w).
  { unfold PreviewWaveformWidget.drawPreviewWaveformPixmap. rewrite Hd. reflexivity. }
  split; [exact Hd|]. split; [exact Hpm|].
  unfold PreviewWaveformWidget.paintEvent. rewrite Hpm. reflexivity.
Qed.

(* ================================================================== *)
(** * Further properties of [BeatBarWidget] *)

Lemma beat_bar_outlines sw sh w :
  Qt.draw_rects (BeatBarWidget.paintEvent sw sh w)
  = map (Spec.box sw sh) [0; 1; 2; 3].
Proof.
  unfold BeatBarWidget.paintEvent. rewrite range_0_4.
  cbn [flat_map app]. unfold BeatBarWidget.draw_box, Spec.box, Spec.box_width.
  destruct (0 =? BeatBarWidget.beat w - 1), (1 =? BeatBarWidget.beat w - 1),
    (2 =? BeatBarWidget.beat w - 1), (3 =? BeatBarWidget.beat w - 1); reflexivity.
Qed.

(** X10.  On a widget at least 19 pixels wide the four boxes of the phrase
    indicator have the same non-negative width, start at column 0, are
    separated by gaps of exactly 6 pixels, and the outline of the last one
    ends at or before the last column [width - 1]; all have top 0 and
    height [height - 1]. *)
Theorem phrase_boxes_fit_widget :
  forall (w : BeatBarWidget.t) (size_width size_height : Z),
    19 <= size_width ->
    exists bw,
      0 <= bw /\
      Qt.draw_rects (BeatBarWidget.paintEvent size_width size_height w)
      = [ (0, 0, bw, size_height - 1);
          (bw + 6, 0, bw, size_height - 1);
          (2 * (bw + 6), 0, bw, size_height - 1);
          (3 * (bw + 6), 0, bw, size_height - 1) ] /\
      3 * (bw + 6) + bw <= size_width - 1 /\
      size_width - 1 < 3 * (bw + 6) + bw + 4.
Proof.
  intros w sw sh Hsw. exists (Spec.box_width sw).
  rewrite beat_bar_outlines. unfold Spec.box, Spec.box_width. cbn [map].
  assert (Hdiv : 0 <= (sw - 1 - 3 * 6) / 4) by (apply Z.div_pos; lia).
  pose proof (Z.div_mod (sw - 1 - 3 * 6) 4 ltac:(lia)) as Hdm.
  pose proof (Z.mod_pos_bound (sw - 1 - 3 * 6) 4 ltac:(lia)) as Hmod.
  set (bw := (sw - 1 - 3 * 6) / 4) in *.
  split; [exact Hdiv|]. split; [|lia].
  replace (0 * (bw + 6)) with 0 by lia.
  replace (1 * (bw + 6)) with (bw + 6) by lia.
  reflexivity.
Qed.

Lemma phrase_boxes_fit_widget_witness :
  exists bw,
    0 <= bw /\
    Qt.draw_rects (BeatBarWidget.paintEvent 100 12 BeatBarWidget.__init__)
    = [ (0, 0, bw, 12 - 1); (bw + 6, 0, bw, 12 - 1);
        (2 * (bw + 6), 0, bw, 12 - 1); (3 * (bw + 6), 0, bw, 12 - 1) ].
Proof.
  destruct (phrase_boxes_fit_widget BeatBarWidget.__init__ 100 12)
    as (bw & H0 & Hrects & _).
  - lia.
  - exists bw. split; assumption.
Defined.

(** X11.  [setBeat] requests a redraw exactly when the beat value changes:
    the request counter grows by one if the new value differs from the
    stored one and not at all otherwise, and any number of further calls
    with the same value change nothing. *)
Theorem setBeat_redraws_on_change :
  forall (w : BeatBarWidget.t) (b : Z),
    let w' := state_of (BeatBarWidget.setBeat b w) in
    BeatBarWidget.beat w' = b /\
    BeatBarWidget.update_requests w'
    = (if b =? BeatBarWidget.beat w
       then BeatBarWidget.update_requests w
       else S (BeatBarWidget.update_requests w)) /\
    (forall k, View.repeat_setBeat k b w' = w').
Proof.
  intros w b w'.
  assert (Hb : BeatBarWidget.beat w' = b).
  { subst w'. unfold BeatBarWidget.setBeat. unfold_eff.
    destruct (Z.eqb_spec b (BeatBarWidget.beat w)) as [->|Hne]; reflexivity. }
  split; [exact Hb|]. split.
  - subst w'. unfold BeatBarWidget.setBeat. unfold_eff.
    destruct (b =? BeatBarWidget.beat w); reflexivity.
  - intros k. induction k as [|k IH]; [reflexivity|].
    cbn [View.repeat_setBeat].
    replace (state_of (BeatBarWidget.setBeat b w')) with w'; [exact IH|].
    unfold BeatBarWidget.setBeat. unfold_eff. rewrite Hb, Z.eqb_refl. reflexivity.
Qed.

(* ================================================================== *)
(** * The window and its players *)

Section DictFacts.
Context {V : Type}.
Implicit Types (d : Gui.dict V) (k : Z) (v : V).

Lemma getitem_setitem_eq k v d : Gui.getitem k (Gui.setitem k v d) = Some v.
Proof.
  unfold Gui.getitem. induction d as [|[k' v'] d IH]; cbn.
  - rewrite Z.eqb_refl. reflexivity.
  - destruct (Z.eqb_spec k' k) as [->|Hne]; cbn.
    + rewrite Z.eqb_refl. reflexivity.
    + destruct (Z.eqb_spec k' k); [contradiction|]. exact IH.
Qed.

Lemma getitem_setitem_neq k k' v d :
  k <> k' -> Gui.getitem k' (Gui.setitem k v d) = Gui.getitem k' d.
Proof.
  intros Hne. unfold Gui.getitem. induction d as [|[k0 v0] d IH]; cbn.
  - destruct (Z.eqb_spec k k'); [contradiction|]. reflexivity.
  - destruct (Z.eqb_spec k0 k) as [->|Hne0]; cbn.
    + destruct (Z.eqb_spec k k'); [contradiction|]. reflexivity.
    + destruct (Z.eqb_spec k0 k'); [reflexivity|]. exact IH.
Qed.

Lemma contains_keys k d : Gui.contains k d = true <-> In k (Gui.keys d).
Proof.
  unfold Gui.contains, Gui.getitem, Gui.keys.
  induction d as [|[k0 v0] d IH]; cbn.
  - split; [discriminate|tauto].
  - destruct (Z.eqb_spec k0 k) as [->|Hne].
    + split; auto.
    + rewrite IH. split; [auto|]. intros [H|H]; [contradiction|exact H].
Qed.

Lemma contains_false_keys k d : Gui.contains k d = false <-> ~ In k (Gui.keys d).
Proof.
  rewrite <- contains_keys. destruct (Gui.contains k d); split; congruence.
Qed.

Lemma keys_setitem k v d :
  Gui.keys (Gui.setitem k v d)
  = if Gui.contains k d then Gui.keys d else Gui.keys d ++ [k].
Proof.
  unfold Gui.contains, Gui.getitem, Gui.keys.
  induction d as [|[k0 v0] d IH]; cbn.
  - reflexivity.
  - destruct (Z.eqb_spec k0 k) as [->|Hne]; cbn.
    + reflexivity.
    + rewrite IH. destruct (find _ d); reflexivity.
Qed.

Lemma keys_delitem k d :
  Gui.keys (Gui.delitem k d) = filter (fun k' => negb (k' =? k)) (Gui.keys d).
Proof.
  unfold Gui.delitem, Gui.keys.
  induction d as [|[k0 v0] d IH]; cbn; [reflexivity|].
  destruct (k0 =? k); cbn; rewrite IH; reflexivity.
Qed.

Lemma getitem_delitem_eq k d : Gui.getitem k (Gui.delitem k d) = None.
Proof.
  unfold Gui.getitem, Gui.delitem.
  induction d as [|[k0 v0] d IH]; cbn; [reflexivity|].
  destruct (Z.eqb_spec k0 k) as [->|Hne]; cbn; [exact IH|].
  destruct (Z.eqb_spec k0 k); [contradiction|exact IH].
Qed.

Lemma getitem_delitem_neq k k' d :
  k <> k' -> Gui.getitem k' (Gui.delitem k d) = Gui.getitem k' d.
Proof.
  intros Hne. unfold Gui.getitem, Gui.delitem.
  induction d as [|[k0 v0] d IH]; cbn; [reflexivity|].
  destruct (Z.eqb_spec k0 k) as [->|Hne0]; cbn.
  - destruct (Z.eqb_spec k k'); [contradiction|exact IH].
  - destruct (Z.eqb_spec k0 k'); [reflexivity|exact IH].
Qed.

Lemma getitem_contains k d v : Gui.getitem k d = Some v -> Gui.contains k d = true.
Proof. unfold Gui.contains. intros ->. reflexivity. Qed.

Lemma getitem_none_contains k d : Gui.getitem k d = None -> Gui.contains k d = false.
Proof. unfold Gui.contains. intros ->. reflexivity. Qed.

End DictFacts.

Lemma cell_injective n m : Gui.cell n = Gui.cell m -> n = m.
Proof.
  unfold Gui.cell. intros H. injection H as Hq Hr.
  pose proof (Z.div_mod (n - 1) 2 ltac:(lia)).
  pose proof (Z.div_mod (m - 1) 2 ltac:(lia)).
  lia.
Qed.

Lemma cell_in_grid n :
  1 <= n <= 4 ->
  0 <= fst (Gui.cell n) <= 1 /\ 0 <= snd (Gui.cell n) <= 1.
Proof.
  intros Hn. unfold Gui.cell. cbn [fst snd].
  pose proof (Z.mod_pos_bound (n - 1) 2 ltac:(lia)).
  assert (0 <= (n - 1) / 2) by (apply Z.div_pos; lia).
  assert ((n - 1) / 2 < 2) by (apply Z.div_lt_upper_bound; lia).
  lia.
Qed.

Section GuiFacts.
Variable format_2f : Py.float -> string.
Variable format_signed_2f_percent : Py.float -> string.
Variable Beatgrid_parse : list byte -> Py.construct_error + WaveformWidget.Beatgrid.

Local Abbreviation create_player := (Gui.create_player format_2f format_signed_2f_percent).
Local Abbreviation keepalive_slot := (Gui.keepalive_slot format_2f format_signed_2f_percent).
Local Abbreviation change_callback := (Gui.change_callback format_2f format_signed_2f_percent).
Local Abbreviation dbserver_callback := (Gui.dbserver_callback Beatgrid_parse).
Local Abbreviation handle := (Gui.handle format_2f format_signed_2f_percent Beatgrid_parse).
Local Abbreviation reachable := (Gui.reachable format_2f format_signed_2f_percent Beatgrid_parse).

Lemma updated_at_keys n g g' :
  Window.updated_at n g g' -> Gui.keys (Gui.players g') = Gui.keys (Gui.players g).
Proof.
  intros [_ [->|(p' & Hc & ->)]]; [reflexivity|].
  rewrite keys_setitem, Hc. reflexivity.
Qed.

Lemma updated_at_other n m g g' :
  Window.updated_at n g g' -> n <> m ->
  Gui.getitem m (Gui.players g') = Gui.getitem m (Gui.players g).
Proof.
  intros [_ [->|(p' & Hc & ->)]] Hne; [reflexivity|].
  apply getitem_setitem_neq. exact Hne.
Qed.

Lemma change_callback_updated cl n g :
  Window.updated_at n g (snd (change_callback cl n g)).
Proof.
  unfold Gui.change_callback.
  destruct (Gui.getitem n (Gui.players g)) as [p|] eqn:Hp; [|split; auto].
  pose proof (getitem_contains _ _ _ Hp) as Hc.
  destruct (cl n) as [c|]; [|split; auto].
  destruct (BeatBarWidget.setBeat _ _) as [[u|e] bar]; cbn [snd].
  - destruct (Gui.track_changed _ c); cbn [snd]; (split; [reflexivity|right; eexists; split; [eassumption|reflexivity]]).
  - split; [reflexivity|right; eexists; split; [eassumption|reflexivity]].
Qed.

Lemma dbserver_callback_updated reply n slot item g :
  Window.updated_at n g (snd (dbserver_callback reply n slot item g)).
Proof.
  unfold Gui.dbserver_callback. cbn [Gui.players Gui.logging].
  destruct (Gui.getitem n (Gui.players g)) as [p|] eqn:Hp; [|split; auto].
  pose proof (getitem_contains _ _ _ Hp) as Hc.
  destruct reply as [title artist album [id|]|data|data|data|data|request];
    unfold Gui.on_widget; cbn [Gui.players Gui.logging Gui.set_players];
    repeat match goal with
           | |- context [if ?b then _ else _] => destruct b
           | |- context [match fst ?x with _ => _ end] => destruct (fst x)
           end;
    cbn [snd Gui.players Gui.layout Gui.logging Gui.set_players];
    (split; [reflexivity|first [left; reflexivity|right; eexists; split; [eassumption|reflexivity]]]).
Qed.

Lemma create_player_absent n g :
  Gui.contains n (Gui.players g) = false ->
  Gui.getitem n (Gui.players (create_player n g))
  = Some (PlayerWidget.__init__ format_2f format_signed_2f_percent
            (String.append "Player " (Gui.str n))) /\
  Gui.players (create_player n g)
  = Gui.setitem n (PlayerWidget.__init__ format_2f format_signed_2f_percent
                     (String.append "Player " (Gui.str n))) (Gui.players g) /\
  Gui.layout (create_player n g) = Gui.setitem n (Gui.cell n) (Gui.layout g) /\
  Gui.requests (create_player n g) = Gui.requests g.
Proof.
  intros Hc. unfold Gui.create_player. rewrite Hc. cbn.
  rewrite getitem_setitem_eq. repeat split.
Qed.

Lemma create_player_present n g :
  Gui.contains n (Gui.players g) = true -> create_player n g = g.
Proof. intros Hc. unfold Gui.create_player. rewrite Hc. reflexivity. Qed.

(** [keepalive_slot] for a number in 1..4: the player list after the
    optional creation, then an update of that player. *)
Lemma keepalive_slot_in_range cl n g :
  Gui.in_range_1_5 n = true ->
  let g1 := create_player n g in
  Gui.contains n (Gui.players g1) = true /\
  Window.updated_at n g1 (snd (keepalive_slot cl n g)).
Proof.
  intros Hr. cbv zeta. unfold Gui.keepalive_slot. rewrite Hr. cbn [negb].
  assert (Hg1 : (if negb (Gui.contains n (Gui.players g))
                 then create_player n g else g) = create_player n g).
  { destruct (Gui.contains n (Gui.players g)) eqn:Hc; cbn [negb];
      [symmetry; apply create_player_present; exact Hc|reflexivity]. }
  rewrite Hg1.
  assert (Hc1 : Gui.contains n (Gui.players (create_player n g)) = true).
  { destruct (Gui.contains n (Gui.players g)) eqn:Hc.
    - rewrite create_player_present by exact Hc. exact Hc.
    - destruct (create_player_absent n g Hc) as (Hget & _).
      exact (getitem_contains _ _ _ Hget). }
  split; [exact Hc1|].
  destruct (cl n) as [c|]; [|split; auto].
  destruct (Gui.getitem n (Gui.players (create_player n g))) as [p|];
    (split; [reflexivity|]); [right; eexists; split; [eassumption|reflexivity]|left; reflexivity].
Qed.

Lemma in_range_1_5_spec n : Gui.in_range_1_5 n = true <-> 1 <= n <= 4.
Proof. unfold Gui.in_range_1_5. rewrite andb_true_iff, Z.leb_le, Z.ltb_lt. lia. Qed.

Lemma contains_same_keys {A B} (d1 : Gui.dict A) (d2 : Gui.dict B) k :
  Gui.keys d1 = Gui.keys d2 -> Gui.contains k d1 = Gui.contains k d2.
Proof.
  intros Hk. destruct (Gui.contains k d2) eqn:H2.
  - apply contains_keys. rewrite Hk. apply contains_keys. exact H2.
  - apply contains_false_keys. rewrite Hk. apply contains_false_keys. exact H2.
Qed.

Lemma window_ok_updated n g g' : Window.ok g -> Window.updated_at n g g' -> Window.ok g'.
Proof.
  intros (Hnd & Hk & Hr & Hcell) Hup.
  pose proof (updated_at_keys n g g' Hup) as Hkeys.
  destruct Hup as [Hl _].
  unfold Window.ok. rewrite Hkeys, Hl. auto.
Qed.

Lemma window_ok_create n g :
  1 <= n <= 4 -> Window.ok g -> Window.ok (create_player n g).
Proof.
  intros Hn (Hnd & Hk & Hr & Hcell).
  destruct (Gui.contains n (Gui.players g)) eqn:Hc.
  - rewrite create_player_present by exact Hc.
    exact (conj Hnd (conj Hk (conj Hr Hcell))).
  - destruct (create_player_absent n g Hc) as (_ & Hp & Hl & _).
    assert (Hcl : Gui.contains n (Gui.layout g) = false).
    { rewrite (contains_same_keys _ (Gui.players g)) by exact Hk. exact Hc. }
    unfold Window.ok. rewrite Hp, Hl, !keys_setitem, Hc, Hcl.
    split; [|split; [|split]].
    + apply NoDup_app; [exact Hnd|repeat constructor; intros []|].
      intros x Hx [<-|[]]. apply contains_false_keys in Hc. contradiction.
    + rewrite Hk. reflexivity.
    + intros m Hm. apply in_app_or in Hm. destruct Hm as [Hm|[<-|[]]]; auto.
    + intros m c Hget. destruct (Z.eq_dec n m) as [<-|Hne].
      * rewrite getitem_setitem_eq in Hget. congruence.
      * rewrite getitem_setitem_neq in Hget by exact Hne. auto.
Qed.

Lemma window_ok_remove n g : Window.ok g -> Window.ok (Gui.remove_player n g).
Proof.
  intros (Hnd & Hk & Hr & Hcell). unfold Gui.remove_player.
  destruct (Gui.contains n (Gui.players g)); cbn [negb];
    [|exact (conj Hnd (conj Hk (conj Hr Hcell)))].
  unfold Window.ok. cbn [Gui.logging Gui.set_players Gui.set_layout Gui.players Gui.layout].
  rewrite !keys_delitem, Hk.
  split; [apply NoDup_filter; exact Hnd|].
  split; [reflexivity|]. split.
  - intros m Hm. apply filter_In in Hm. apply Hr, Hm.
  - intros m c Hget. destruct (Z.eq_dec n m) as [<-|Hne].
    + rewrite getitem_delitem_eq in Hget. discriminate.
    + rewrite getitem_delitem_neq in Hget by exact Hne. auto.
Qed.

Lemma window_ok_init : Window.ok (Gui.__init__ format_2f format_signed_2f_percent).
Proof.
  unfold Gui.__init__. apply window_ok_create; [lia|].
  split; [constructor|]. split; [reflexivity|].
  split; [intros n []|intros n c H; discriminate].
Qed.

Lemma reachable_window_ok g : reachable g -> Window.ok g.
Proof.
  induction 1 as [|g e Hg IH].
  - apply window_ok_init.
  - destruct e as [cl n|cl n|reply n slot item|n]; cbn [Gui.handle].
    + destruct (Gui.in_range_1_5 n) eqn:Hr.
      * destruct (keepalive_slot_in_range cl n g Hr) as [_ Hup].
        eapply window_ok_updated; [|exact Hup].
        apply window_ok_create; [apply in_range_1_5_spec; exact Hr|exact IH].
      * unfold Gui.keepalive_slot. rewrite Hr. exact IH.
    + eapply window_ok_updated; [exact IH|apply change_callback_updated].
    + eapply window_ok_updated; [exact IH|apply dbserver_callback_updated].
    + apply window_ok_remove. exact IH.
Qed.

End GuiFacts.

(** X12.  The window keeps its players in order: in every reachable window
    the player numbers are distinct and lie in 1..4 (so there are at most
    four), the layout holds exactly the players, each in the grid cell
    [((n-1)//2, (n-1)%2)] of its number, inside the 2x2 grid, and no two
    players share a cell. *)
Theorem window_players_in_grid :
  forall (format_2f format_signed_2f_percent : Py.float -> string)
         (Beatgrid_parse : list byte -> Py.construct_error + WaveformWidget.Beatgrid)
         (g : Gui.t),
    Gui.reachable format_2f format_signed_2f_percent Beatgrid_parse g ->
    NoDup (Gui.keys (Gui.players g)) /\
    (forall n, Gui.contains n (Gui.players g) = true -> 1 <= n <= 4) /\
    (List.length (Gui.players g) <= 4)%nat /\
    (forall n, Gui.getitem n (Gui.layout g)
               = if Gui.contains n (Gui.players g) then Some (Gui.cell n) else None) /\
    (forall n c, Gui.getitem n (Gui.layout g) = Some c ->
                 0 <= fst c <= 1 /\ 0 <= snd c <= 1) /\
    (forall n m c, Gui.getitem n (Gui.layout g) = Some c ->
                   Gui.getitem m (Gui.layout g) = Some c -> n = m).
Proof.
  intros f1 f2 parse g Hg.
  destruct (reachable_window_ok f1 f2 parse g Hg) as (Hnd & Hk & Hr & Hcell).
  assert (Hlay : forall n, Gui.getitem n (Gui.layout g)
                           = if Gui.contains n (Gui.players g)
                             then Some (Gui.cell n) else None).
  { intros n.
    rewrite <- (contains_same_keys (Gui.layout g) (Gui.players g) n Hk).
    unfold Gui.contains.
    destruct (Gui.getitem n (Gui.layout g)) as [c|] eqn:Hget; [|reflexivity].
    rewrite (Hcell n c Hget). reflexivity. }
  assert (Hrange : forall n, Gui.contains n (Gui.players g) = true -> 1 <= n <= 4).
  { intros n Hc. apply Hr, contains_keys, Hc. }
  split; [exact Hnd|]. split; [exact Hrange|]. split; [|split; [exact Hlay|split]].
  - replace (List.length (Gui.players g)) with (List.length (Gui.keys (Gui.players g)))
      by apply length_map.
    change 4%nat with (List.length [1; 2; 3; 4]).
    apply NoDup_incl_length; [exact Hnd|].
    intros n Hn. specialize (Hr n Hn). cbn.
    assert (n = 1 \/ n = 2 \/ n = 3 \/ n = 4) by lia. intuition auto.
  - intros n c Hget. rewrite Hlay in Hget.
    destruct (Gui.contains n (Gui.players g)) eqn:Hc; [|discriminate].
    injection Hget as <-. apply cell_in_grid, Hrange, Hc.
  - intros n m c Hn Hm. rewrite Hlay in Hn, Hm.
    destruct (Gui.contains n (Gui.players g)); [|discriminate].
    destruct (Gui.contains m (Gui.players g)); [|discriminate].
    apply cell_injective. congruence.
Qed.

Lemma window_players_in_grid_witness :
  let fmt := fun _ : Py.float => "0.00"%string in
  let parse := fun _ : list byte => @inl _ WaveformWidget.Beatgrid Py.RangeError in
  let cl := fun _ : Z => @None Gui.Client in
  let g := snd (Gui.keepalive_slot fmt fmt cl 3 (Gui.__init__ fmt fmt)) in
  Gui.keys (Gui.players g) = [1; 3] /\
  Gui.getitem 3 (Gui.layout g) = Some (1, 0) /\
  NoDup (Gui.keys (Gui.players g)).
Proof.
  intros fmt parse cl g.
  assert (Hg : Gui.reachable fmt fmt parse g).
  { apply (Gui.reach_event fmt fmt parse _ (Gui.Keepalive cl 3)). apply Gui.reach_init. }
  split; [reflexivity|]. split; [reflexivity|].
  exact (proj1 (window_players_in_grid fmt fmt parse g Hg)).
Defined.

(** X13.  [keepalive_slot] ignores player numbers outside 1..4 altogether.
    For a number in 1..4 the player exists afterwards (created if need be),
    every other player is as before, no database request is sent, and the
    call returns exactly when the client list knows the player; its info
    label then reads model, two blanks, address. *)
Theorem keepalive_creates_players_1_to_4 :
  forall (format_2f format_signed_2f_percent : Py.float -> string)
         (cl : Gui.ClientList) (n : Z) (g : Gui.t),
    let r := Gui.keepalive_slot format_2f format_signed_2f_percent cl n g in
    (~ 1 <= n <= 4 -> r = (Gui.Done, g)) /\
    (1 <= n <= 4 ->
     Gui.contains n (Gui.players (snd r)) = true /\
     (forall m, m <> n ->
                Gui.getitem m (Gui.players (snd r)) = Gui.getitem m (Gui.players g)) /\
     Gui.requests (snd r) = Gui.requests g /\
     (fst r = Gui.Done <-> cl n <> None) /\
     (forall c, cl n = Some c ->
                exists p, Gui.getitem n (Gui.players (snd r)) = Some p /\
                          PlayerWidget.label_info p
                          = String.append (Gui.model c)
                              (String.append "  " (Gui.ip_addr c)))).
Proof.
  intros f1 f2 cl n g r. split.
  - intros Hn. subst r. unfold Gui.keepalive_slot.
    destruct (Gui.in_range_1_5 n) eqn:Hr; [apply in_range_1_5_spec in Hr; lia|].
    reflexivity.
  - intros Hn. apply in_range_1_5_spec in Hn.
    destruct (keepalive_slot_in_range f1 f2 cl n g Hn) as [Hc1 Hup]. fold r in Hup.
    assert (Hother : forall m, m <> n ->
              Gui.getitem m (Gui.players (Gui.create_player f1 f2 n g))
              = Gui.getitem m (Gui.players g)).
    { intros m Hm. destruct (Gui.contains n (Gui.players g)) eqn:Hc.
      - rewrite create_player_present by exact Hc. reflexivity.
      - destruct (create_player_absent f1 f2 n g Hc) as (_ & -> & _).
        apply getitem_setitem_neq. congruence. }
    assert (Hreq : Gui.requests (Gui.create_player f1 f2 n g) = Gui.requests g).
    { destruct (Gui.contains n (Gui.players g)) eqn:Hc.
      - rewrite create_player_present by exact Hc. reflexivity.
      - apply (create_player_absent f1 f2 n g Hc). }
    assert (Hg1 : (if negb (Gui.contains n (Gui.players g))
                   then Gui.create_player f1 f2 n g else g)
                  = Gui.create_player f1 f2 n g).
    { destruct (Gui.contains n (Gui.players g)) eqn:Hc; cbn [negb];
        [symmetry; apply create_player_present; exact Hc|reflexivity]. }
    split; [|split; [|split; [|split]]].
    + apply contains_keys. rewrite (updated_at_keys n _ _ Hup).
      apply contains_keys. exact Hc1.
    + intros m Hm. rewrite (updated_at_other n m _ _ Hup) by congruence.
      apply Hother. exact Hm.
    + subst r. unfold Gui.keepalive_slot. rewrite Hn, Hg1. cbn [negb].
      destruct (cl n) as [c|]; [|exact Hreq].
      destruct (Gui.getitem n _); exact Hreq.
    + subst r. unfold Gui.keepalive_slot. rewrite Hn, Hg1. cbn [negb].
      destruct (cl n) as [c|].
      * destruct (Gui.getitem n _); cbn; split; congruence.
      * cbn. split; [discriminate|congruence].
    + intros c Hcl. subst r. unfold Gui.keepalive_slot. rewrite Hn, Hg1, Hcl. cbn [negb].
      unfold Gui.contains in Hc1.
      destruct (Gui.getitem n (Gui.players (Gui.create_player f1 f2 n g))) as [p|];
        [|discriminate].
      cbn [snd Gui.players Gui.set_players]. rewrite getitem_setitem_eq.
      eexists. split; [reflexivity|]. reflexivity.
Qed.

Lemma setBeat_state b w :
  exists bar, BeatBarWidget.setBeat b w = (Return tt, bar) /\ BeatBarWidget.beat bar = b.
Proof.
  unfold BeatBarWidget.setBeat. unfold_eff.
  destruct (Z.eqb_spec b (BeatBarWidget.beat w)) as [He|Hne]; cbn [negb];
    eexists; (split; [reflexivity|]); [symmetry; exact He|reflexivity].
Qed.

Lemma track_changed_ext p q c :
  PlayerWidget.track_id q = PlayerWidget.track_id p ->
  Gui.track_changed q c = Gui.track_changed p c.
Proof. intros Hq. unfold Gui.track_changed. rewrite Hq. reflexivity. Qed.

(** What [change_callback] does for a player the window has and the client
    list knows. *)
Lemma change_callback_shape f1 f2 cl n g p c :
  Gui.getitem n (Gui.players g) = Some p ->
  cl n = Some c ->
  exists p',
    Gui.change_callback f1 f2 cl n g
    = (Gui.Done,
       if Gui.track_changed p c then
         Gui.send (Window.track_requests c)
           (Gui.set_players (Gui.setitem n p' (Gui.players g))
              (Gui.logging Gui.INFO
                 "Gui: track id of player %d changed to %d, requesting metadata"
                 [Gui.arg_int n; Gui.arg_int n] g))
       else Gui.set_players (Gui.setitem n p' (Gui.players g)) g) /\
    BeatBarWidget.beat (PlayerWidget.beat_bar p') = Gui.beat c /\
    PlayerWidget.track_id p'
    = (if Gui.track_changed p c then Some (Gui.track_id c)
       else PlayerWidget.track_id p).
Proof.
  intros Hp Hc. unfold Gui.change_callback. rewrite Hp, Hc.
  destruct (setBeat_state (Gui.beat c)
              (PlayerWidget.beat_bar
                 (PlayerWidget.setMaster (Gui.is_master c)
                    (PlayerWidget.setSpeed f1 f2 (Gui.bpm c) (Gui.pitch c) p))))
    as (bar & Hbar & Hbeat).
  rewrite Hbar.
  match goal with
  | |- context [Gui.track_changed ?q c] =>
      assert (Hq : PlayerWidget.track_id q = PlayerWidget.track_id p /\
                   PlayerWidget.beat_bar q = bar)
        by (destruct (Gui.bpm c), (Gui.is_master c),
              (0 <? Z.of_nat (String.length (Gui.fw c))); split; reflexivity);
      set (q0 := q) in *
  end.
  destruct Hq as [Htid Hbb].
  rewrite (track_changed_ext p q0 c Htid).
  destruct (Gui.track_changed p c); eexists; (split; [reflexivity|]).
  - split; [cbn; rewrite Hbb; exact Hbeat|reflexivity].
  - split; [rewrite Hbb; exact Hbeat|exact Htid].
Qed.



(** X15.  [dbserver_callback] never sends a database request, so artwork is
    never fetched: a metadata reply sets the three text labels of the
    player, and when it carries a non-zero artwork id the callback ends in
    [NameError] ([player_slot] is not a name of the function) instead of
    requesting the artwork; without an artwork id, or with id 0, it
    returns. *)
Theorem metadata_reply_never_fetches_artwork :
  forall (Beatgrid_parse : list byte -> Py.construct_error + WaveformWidget.Beatgrid)
         (reply : Gui.response) (n : Z) (slot : string) (item_id : Z) (g : Gui.t),
    let r := Gui.dbserver_callback Beatgrid_parse reply n slot item_id g in
    Gui.requests (snd r) = Gui.requests g /\
    (forall title artist album id p,
        reply = Gui.metadata title artist album id ->
        Gui.getitem n (Gui.players g) = Some p ->
        fst r = match id with
                | Some i => if i =? 0 then Gui.Done
                            else Gui.Raised (Gui.NameError "player_slot")
                | None => Gui.Done
                end /\
        exists p',
          Gui.getitem n (Gui.players (snd r)) = Some p' /\
          PlayerWidget.label_title p' = title /\
          PlayerWidget.label_artist p' = artist /\
          PlayerWidget.label_album p' = album /\
          PlayerWidget.label_artwork p' = PlayerWidget.label_artwork p).
Proof.
  intros parse reply n slot item g r. split.
  - subst r. unfold Gui.dbserver_callback. cbn [Gui.players Gui.logging].
    destruct (Gui.getitem n (Gui.players g)) as [p|]; [|reflexivity].
    destruct reply as [title artist album [id|]|data|data|data|data|request];
      unfold Gui.on_widget; cbn [Gui.players Gui.logging Gui.set_players];
      repeat match goal with
             | |- context [if ?b then _ else _] => destruct b
             | |- context [match fst ?x with _ => _ end] => destruct (fst x)
             end; reflexivity.
  - intros title artist album id p -> Hp. subst r.
    unfold Gui.dbserver_callback. cbn [Gui.players Gui.logging]. rewrite Hp.
    split.
    + destruct id as [i|]; [|reflexivity].
      destruct (i =? 0); reflexivity.
    + exists (PlayerWidget.setMetadata title artist album p).
      split; [|repeat split].
      destruct id as [i|]; [destruct (i =? 0)|]; cbn; apply getitem_setitem_eq.
Qed.

Lemma metadata_reply_never_fetches_artwork_witness :
  let fmt := fun _ : Py.float => "0.00"%string in
  let parse := fun _ : list byte => @inl _ WaveformWidget.Beatgrid Py.RangeError in
  let r := Gui.dbserver_callback parse (Gui.metadata "T" "A" "L" (Some 7)) 1 "usb" 42
             (Gui.__init__ fmt fmt) in
  fst r = Gui.Raised (Gui.NameError "player_slot") /\ Gui.requests (snd r) = [].
Proof.
  intros fmt parse r.
  destruct (metadata_reply_never_fetches_artwork parse (Gui.metadata "T" "A" "L" (Some 7))
              1 "usb" 42 (Gui.__init__ fmt fmt)) as [Hreq Hmeta].
  destruct (Hmeta "T"%string "A"%string "L"%string (Some 7)
              (PlayerWidget.__init__ fmt fmt "Player 1") eq_refl eq_refl) as [Hfst _].
  split; [exact Hfst|exact Hreq].
Defined.

(** X16.  A reply for a player the window does not have (a stale callback)
    is dropped: the callback returns and only the debug record is logged.
    A reply with a request name the callback does not handle returns too,
    changes no player, and logs a warning naming the request. *)
Theorem stale_and_unhandled_replies_are_dropped :
  forall (Beatgrid_parse : list byte -> Py.construct_error + WaveformWidget.Beatgrid)
         (reply : Gui.response) (n : Z) (slot : string) (item_id : Z) (g : Gui.t),
    let r := Gui.dbserver_callback Beatgrid_parse reply n slot item_id g in
    let debug := {| Gui.lr_level := Gui.DEBUG;
                    Gui.lr_format := "Gui: dbserver_callback %s %d";
                    Gui.lr_args := [Gui.arg_str (Gui.request_of reply); Gui.arg_int n] |} in
    (Gui.getitem n (Gui.players g) = None ->
     fst r = Gui.Done /\
     Gui.players (snd r) = Gui.players g /\
     Gui.layout (snd r) = Gui.layout g /\
     Gui.log (snd r) = Gui.log g ++ [debug]) /\
    (forall request,
        reply = Gui.unhandled request ->
        fst r = Gui.Done /\
        Gui.players (snd r) = Gui.players g /\
        Gui.layout (snd r) = Gui.layout g /\
        (Gui.contains n (Gui.players g) = true ->
         Gui.log (snd r)
         = Gui.log g
           ++ [debug;
               {| Gui.lr_level := Gui.WARNING;
                  Gui.lr_format := "Gui: unhandled dbserver callback %s";
                  Gui.lr_args := [Gui.arg_str request] |}])).
Proof.
  intros parse reply n slot item g r debug. split.
  - intros Hnone. subst r. unfold Gui.dbserver_callback.
    cbn [Gui.players Gui.logging]. rewrite Hnone. repeat split.
  - intros request ->. subst r. unfold Gui.dbserver_callback.
    cbn [Gui.players Gui.logging].
    destruct (Gui.getitem n (Gui.players g)) as [p|] eqn:Hp.
    + repeat split. intros _. cbn. rewrite <- app_assoc. reflexivity.
    + repeat split. intros Hc. unfold Gui.contains in Hc. rewrite Hp in Hc. discriminate.
Qed.



(** X18.  Removing a player forgets everything about it: after
    [remove_player] the number is in neither the player list nor the layout
    (and a second removal changes nothing); when a keep-alive for a number
    in 1..4 brings the player back, its widget is new, with no remembered
    track, so the next change callback with a non-zero track id sends the
    four track requests again. *)
Theorem removed_player_starts_afresh :
  forall (format_2f format_signed_2f_percent : Py.float -> string)
         (Beatgrid_parse : list byte -> Py.construct_error + WaveformWidget.Beatgrid)
         (cl : Gui.ClientList) (n : Z) (c : Gui.Client) (g : Gui.t),
    Gui.reachable format_2f format_signed_2f_percent Beatgrid_parse g ->
    1 <= n <= 4 ->
    cl n = Some c ->
    Gui.track_id c <> 0 ->
    let g1 := Gui.remove_player n g in
    let g2 := snd (Gui.keepalive_slot format_2f format_signed_2f_percent cl n g1) in
    let r := Gui.change_callback format_2f format_signed_2f_percent cl n g2 in
    Gui.getitem n (Gui.players g1) = None /\
    Gui.getitem n (Gui.layout g1) = None /\
    Gui.remove_player n g1 = g1 /\
    Gui.getitem n (Gui.players g2)
    = Some (PlayerWidget.setPlayerInfo (Gui.model c) (Gui.ip_addr c) EmptyString
              (PlayerWidget.__init__ format_2f format_signed_2f_percent
                 (String.append "Player " (Gui.str n)))) /\
    fst r = Gui.Done /\
    Gui.requests (snd r) = Gui.requests g ++ Window.track_requests c.
Proof.
  intros f1 f2 parse cl n c g Hg Hn Hc Htid g1 g2 r.
  destruct (reachable_window_ok f1 f2 parse g Hg) as (_ & Hkeys & _ & _).
  assert (H1 : Gui.getitem n (Gui.players g1) = None /\
               Gui.getitem n (Gui.layout g1) = None \/ g1 = g /\
               Gui.getitem n (Gui.players g) = None).
  { subst g1. unfold Gui.remove_player.
    destruct (Gui.contains n (Gui.players g)) eqn:Hcont; cbn [negb].
    - left. cbn [Gui.logging Gui.set_players Gui.set_layout Gui.players Gui.layout].
      split; apply getitem_delitem_eq.
    - right. split; [reflexivity|].
      unfold Gui.contains in Hcont.
      destruct (Gui.getitem n (Gui.players g)); [discriminate|reflexivity]. }
  assert (Hreq1 : Gui.requests g1 = Gui.requests g).
  { subst g1. unfold Gui.remove_player.
    destruct (Gui.contains n (Gui.players g)); reflexivity. }
  assert (Hp1 : Gui.getitem n (Gui.players g1) = None).
  { destruct H1 as [[H _]|[-> H]]; exact H. }
  pose proof (getitem_none_contains _ _ Hp1) as Hc1.
  assert (Hg2 : Gui.getitem n (Gui.players g2)
                = Some (PlayerWidget.setPlayerInfo (Gui.model c) (Gui.ip_addr c) EmptyString
                          (PlayerWidget.__init__ f1 f2 (String.append "Player " (Gui.str n)))) /\
                Gui.requests g2 = Gui.requests g).
  { subst g2. unfold Gui.keepalive_slot.
    rewrite (proj2 (in_range_1_5_spec n) Hn), Hc1, Hc. cbn [negb].
    destruct (create_player_absent f1 f2 n g1 Hc1) as (Hget & _ & _ & Hreq).
    rewrite Hget. cbn [snd Gui.players Gui.set_players Gui.requests].
    rewrite getitem_setitem_eq, Hreq, Hreq1. split; reflexivity. }
  destruct Hg2 as [Hp2 Hreq2].
  split; [exact Hp1|]. split; [|split; [|split; [exact Hp2|]]].
  - destruct H1 as [[_ H]|[Hg1 H]]; [exact H|].
    subst g1. unfold Gui.remove_player.
    unfold Gui.contains. rewrite H. cbn [negb].
    pose proof (contains_same_keys (Gui.layout g) (Gui.players g) n Hkeys) as Hsame.
    unfold Gui.contains in Hsame. rewrite H in Hsame.
    destruct (Gui.getitem n (Gui.layout g)); [discriminate|reflexivity].
  - unfold Gui.remove_player. rewrite Hc1. reflexivity.
  - destruct (change_callback_shape f1 f2 cl n g2 _ c Hp2 Hc) as (p' & Hr & _).
    fold r in Hr. rewrite Hr.
    assert (Htc : Gui.track_changed
                    (PlayerWidget.setPlayerInfo (Gui.model c) (Gui.ip_addr c) EmptyString
                       (PlayerWidget.__init__ f1 f2 (String.append "Player " (Gui.str n)))) c
                  = true).
    { unfold Gui.track_changed. cbn. apply negb_true_iff, Z.eqb_neq. exact Htid. }
    rewrite Htc. cbn [fst snd Gui.requests Gui.send Gui.set_players Gui.logging].
    rewrite Hreq2. split; reflexivity.
Qed.


Lemma removed_player_starts_afresh_witness :
  let fmt := fun _ : Py.float => "0.00"%string in
  let parse := fun _ : list byte => @inl _ WaveformWidget.Beatgrid Py.RangeError in
  let c := {| Gui.model := "CDJ-2000"; Gui.ip_addr := "10.0.0.1"; Gui.fw := "1.0";
              Gui.bpm := inr Py.f_1; Gui.pitch := Py.f_1; Gui.state := [];
              Gui.beat := 1; Gui.track_id := 42; Gui.player_number := 1;
              Gui.player_slot := "usb" |} in
  let cl := fun _ : Z => Some c in
  let g := Gui.__init__ fmt fmt in
  Gui.requests
    (snd (Gui.change_callback fmt fmt cl 1
            (snd (Gui.keepalive_slot fmt fmt cl 1 (Gui.remove_player 1 g)))))
  = Gui.requests g ++ Window.track_requests c.
Proof.
  intros fmt parse c cl g.
  assert (Hn : 1 <= 1 <= 4) by lia.
  assert (Ht : Gui.track_id c <> 0) by discriminate.
  exact (proj2 (proj2 (proj2 (proj2 (proj2
           (removed_player_starts_afresh fmt fmt parse cl 1 c g
              (Gui.reach_init fmt fmt parse) Hn eq_refl Ht)))))).
Defined.
